(** * sp500-cli: the S&P 500 one-year return command line tool

    A shallow embedding of [main.py] and the properties of its fetch,
    its text and JSON presenters and its exit status.

    Python's [float] is IEEE 754 binary64: it is modelled by Rocq's
    primitive floats, whose operations round to nearest, ties to even,
    like the interpreter's.  Standard output is modelled as the sequence
    of [print] calls, each of which writes its argument and a newline. *)

From Stdlib Require Import ZArith NArith List String Ascii Bool Lia.
From Stdlib Require Import Floats.
From Stdlib Require Import DecimalString.
From Stdlib Require DecimalFacts DecimalPos DecimalN.
Import ListNotations.

Set Warnings "-register-all,-inexact-float".

Local Open Scope string_scope.
Local Open Scope Z_scope.

(** ** Effects: a trace of calls and prints, and exceptions *)

(** The functions of [main.py]. *)
Inductive func : Type :=
  | Fget_sp500_year_return
  | Fdisplay_return
  | Fdisplay_json.

(** What a run does that can be observed: it enters a function of the
    module, or [print]s a string (followed by a newline). *)
Inductive event : Type :=
  | Enters (f : func)
  | Prints (s : string).

(** A computation yields its events, in order, and a value. *)
Definition IO (A : Type) : Type := (list event * A)%type.

Definition ret {A} (a : A) : IO A := ([], a).

Definition bind {A B} (m : IO A) (k : A -> IO B) : IO B :=
  let (t1, a) := m in
  let (t2, b) := k a in
  (t1 ++ t2, b)%list.

Definition print (s : string) : IO unit := ([Prints s], tt).
Definition enter (f : func) : IO unit := ([Enters f], tt).

Declare Scope io_scope.
Delimit Scope io_scope with io.
Notation "x <- m ;; k" := (bind m (fun x => k))
  (at level 61, m at next level, right associativity) : io_scope.
Notation "m ;; k" := (bind m (fun _ => k))
  (at level 61, right associativity) : io_scope.

(** The strings printed, in order. *)
Fixpoint printed (t : list event) : list string :=
  match t with
  | [] => []
  | Prints s :: t' => s :: printed t'
  | Enters _ :: t' => printed t'
  end.

(** The functions entered, in order. *)
Fixpoint called (t : list event) : list func :=
  match t with
  | [] => []
  | Enters f :: t' => f :: called t'
  | Prints _ :: t' => called t'
  end.

(** The text that reaches the output stream. *)
Fixpoint stdout_text (lines : list string) : string :=
  match lines with
  | [] => ""
  | s :: rest => s ++ String "010" (stdout_text rest)
  end.

(** The exceptions the [try] of [get_sp500_year_return] tells apart:
    [ImportError], and any other [Exception], which carries the text
    that [str(e)] gives.  What [except Exception] lets through
    ([KeyboardInterrupt], [SystemExit]) ends the process and is not
    modelled. *)
Inductive exn : Type :=
  | ImportError
  | OtherException (msg : string).

Inductive outcome (A : Type) : Type :=
  | Returns (a : A)
  | Raises (e : exn).
Arguments Returns {A} a.
Arguments Raises {A} e.

(** Sequencing inside a [try] block: the first exception ends it. *)
Definition andThen {A B} (m : outcome A) (k : A -> IO (outcome B)) : IO (outcome B) :=
  match m with
  | Returns a => k a
  | Raises e => ret (Raises e)
  end.

Notation "x <-! m ;; k" := (andThen m (fun x => k))
  (at level 61, m at next level, right associativity) : io_scope.

(** ** The market-data provider *)

(** The index of a row: a calendar day (a pandas [Timestamp]). *)
Record Timestamp : Type := {
  ts_year : N;
  ts_month : N;
  ts_day : N
}.

(** One row of a price history: its index and its [Close] column. *)
Record Bar : Type := {
  bar_index : Timestamp;
  bar_close : float
}.

(** A price history, oldest row first. *)
Definition DataFrame : Type := list Bar.

(** [yf.Ticker(symbol)]: an object whose [history(period=...)] returns
    a frame or raises. *)
Record Ticker : Type := {
  history : string -> outcome DataFrame
}.

(** The [yfinance] module: importing it may raise, and so may building
    a ticker. *)
Record Yahoo : Type := {
  yf_import : outcome unit;
  yf_Ticker : string -> outcome Ticker
}.

(** [df.empty] *)
Definition empty (df : DataFrame) : bool :=
  match df with [] => true | _ => false end.

(** [len(df)] *)
Definition len (df : DataFrame) : Z := Z.of_nat (List.length df).

Definition out_of_bounds : string := "single positional indexer is out-of-bounds".

(** [df.iloc[i]] for [i] in [0] and [-1], the two positions the program
    reads; an empty frame raises [IndexError]. *)
Definition iloc (df : DataFrame) (i : Z) : outcome Bar :=
  if i =? 0 then
    match df with
    | b :: _ => Returns b
    | [] => Raises (OtherException out_of_bounds)
    end
  else
    match rev df with
    | b :: _ => Returns b
    | [] => Raises (OtherException out_of_bounds)
    end.

(** Python's [a / b] on floats: a zero divisor raises
    [ZeroDivisionError]; everything else is the IEEE quotient. *)
Definition float_division_by_zero : string := "float division by zero".

Definition truediv (a b : float) : outcome float :=
  if (b =? 0)%float then Raises (OtherException float_division_by_zero)
  else Returns (a / b)%float.

(** ** Decimal digits *)

(** [str(n)] for a natural number. *)
Definition decimal (n : N) : string := NilZero.string_of_uint (N.to_uint n).

(** [n] in decimal, zero-padded on the left to at least [width] characters. *)
Fixpoint zeros (k : nat) : string :=
  match k with
  | O => ""
  | S k' => String "0" (zeros k')
  end.

Definition zfill (width : nat) (s : string) : string :=
  zeros (width - String.length s) ++ s.

(** [ts.strftime('%Y-%m-%d')] *)
Definition strftime_Ymd (ts : Timestamp) : string :=
  zfill 4 (decimal (ts_year ts)) ++ "-" ++
  zfill 2 (decimal (ts_month ts)) ++ "-" ++
  zfill 2 (decimal (ts_day ts)).

(** ** The data fetcher *)

(** The dictionary [get_sp500_year_return] returns. *)
Record ReturnResult : Type := {
  current_price : float;
  year_ago_price : float;
  year_return : float;
  date : string
}.

Local Open Scope io_scope.

(** The body of the [try] block, lines 19 to 45. *)
Definition fetch_body (yf : Yahoo) : IO (outcome (option ReturnResult)) :=
  _ <-! yf_import yf ;;
  sp500 <-! yf_Ticker yf "^GSPC" ;;
  current_data <-! history sp500 "1d" ;;
  if empty current_data then
    print "Error: Could not fetch current S&P 500 data" ;;
    ret (Returns None)
  else
    current_bar <-! iloc current_data (-1) ;;
    let current_price := bar_close current_bar in
    historical_data <-! history sp500 "1y" ;;
    if len historical_data <? 2 then
      print "Error: Insufficient historical data" ;;
      ret (Returns None)
    else
      year_ago_bar <-! iloc historical_data 0 ;;
      let year_ago_price := bar_close year_ago_bar in
      quotient <-! truediv (current_price - year_ago_price)%float year_ago_price ;;
      let year_return := (quotient * 100)%float in
      last_bar <-! iloc current_data (-1) ;;
      ret (Returns (Some {|
        current_price := current_price;
        year_ago_price := year_ago_price;
        year_return := year_return;
        date := strftime_Ymd (bar_index last_bar)
      |})).

(** [get_sp500_year_return()]: the [try] block and its two handlers. *)
Definition get_sp500_year_return (yf : Yahoo) : IO (option ReturnResult) :=
  enter Fget_sp500_year_return ;;
  r <- fetch_body yf ;;
  match r with
  | Returns data => ret data
  | Raises ImportError =>
      print "Error: yfinance not installed. Run: pip3 install yfinance" ;;
      ret None
  | Raises (OtherException e) =>
      print ("Error fetching data: " ++ e) ;;
      ret None
  end.

(** ** Formatting floats: [format(x, '.2f')] and [format(x, ',.2f')] *)

(** [num / den] rounded to the nearest integer, ties to the even one. *)
Definition round_half_even (num den : Z) : Z :=
  let q := num / den in
  match (2 * (num mod den) ?= den) with
  | Lt => q
  | Gt => q + 1
  | Eq => if Z.even q then q else q + 1
  end.

(** The exact value [m * 2^e] in hundredths, correctly rounded. *)
Definition hundredths (m : positive) (e : Z) : N :=
  Z.to_N (if 0 <=? e then Z.pos m * 2 ^ e * 100
          else round_half_even (Z.pos m * 100) (2 ^ (- e))).

(** A comma before every group of three digits, counted from the right;
    the digits come least significant first and [k] more fit in the
    current group. *)
Fixpoint group_rev (digits : list ascii) (k : nat) : list ascii :=
  match digits with
  | [] => []
  | c :: rest =>
      match k with
      | O => ","%char :: c :: group_rev rest 2
      | S k' => c :: group_rev rest k'
      end
  end.

Definition thousands (s : string) : string :=
  string_of_list_ascii (rev (group_rev (rev (list_ascii_of_string s)) 3)).

(** The digits of [n] hundredths: integer part, point, two decimals. *)
Definition fixed2 (grouping : bool) (n : N) : string :=
  let whole := decimal (n / 100) in
  (if grouping then thousands whole else whole) ++ "." ++ zfill 2 (decimal (n mod 100)).

Definition minus (s : bool) : string := if s then "-" else "".

(** [format(x, '.2f')], and [format(x, ',.2f')] when [grouping] is set:
    the sign of the float, then its magnitude to two decimals; [inf]
    and [nan] are spelled out. *)
Definition format_2f (grouping : bool) (x : float) : string :=
  match Prim2SF x with
  | S754_nan => "nan"
  | S754_infinity s => minus s ++ "inf"
  | S754_zero s => minus s ++ fixed2 grouping 0
  | S754_finite s m e => minus s ++ fixed2 grouping (hundredths m e)
  end.

(** ** The text presenter *)

Definition format_price (price : float) : string :=
  "$" ++ format_2f true price.

(** The escape character, [\033]. *)
Definition ESC : ascii := "027"%char.

(** [c * n] *)
Fixpoint times (c : string) (n : nat) : string :=
  match n with
  | O => ""
  | S n' => c ++ times c n'
  end.

Definition NL : string := String "010" "".

Record Palette : Type := {
  GREEN : string;
  RED : string;
  BOLD : string;
  RESET : string;
  BLUE : string;
  YELLOW : string
}.

(** Lines 71 to 79: the color codes, or empty strings. *)
Definition palette (colorize isatty : bool) : Palette :=
  if colorize && isatty then
    {| GREEN := String ESC "[92m";
       RED := String ESC "[91m";
       BOLD := String ESC "[1m";
       RESET := String ESC "[0m";
       BLUE := String ESC "[94m";
       YELLOW := String ESC "[93m" |}
  else
    {| GREEN := ""; RED := ""; BOLD := ""; RESET := ""; BLUE := ""; YELLOW := "" |}.

(** Lines 83 and 84: the color and the sign of the return. *)
Definition color (p : Palette) (return_value : float) : string :=
  if (0 <=? return_value)%float then GREEN p else RED p.

Definition sign (return_value : float) : string :=
  if (0 <=? return_value)%float then "+" else "".

(** The percentage as line 92 writes it: the sign, the return to two
    decimals, a percent sign. *)
Definition percentage (return_value : float) : string :=
  sign return_value ++ format_2f false return_value ++ "%".

(** Line 92 as a whole. *)
Definition return_line (p : Palette) (return_value : float) : string :=
  BOLD p ++ color p return_value ++ "  " ++ percentage return_value ++ RESET p.

(** [display_return(data, colorize)]; [isatty] is what
    [sys.stdout.isatty()] answers. *)
Definition display_return (data : option ReturnResult) (colorize : bool)
    (isatty : bool) : IO unit :=
  enter Fdisplay_return ;;
  match data with
  | None => ret tt
  | Some data =>
      let p := palette colorize isatty in
      print (NL ++ BOLD p ++ times "=" 50 ++ RESET p) ;;
      print (BOLD p ++ "       S&P 500 ONE-YEAR RETURN" ++ RESET p) ;;
      print (BOLD p ++ times "=" 50 ++ RESET p ++ NL) ;;
      print (return_line p (year_return data)) ;;
      print "" ;;
      print (BOLD p ++ "Details:" ++ RESET p) ;;
      print ("  Current Price:      " ++ format_price (current_price data)) ;;
      print ("  Price 1 Year Ago:   " ++ format_price (year_ago_price data)) ;;
      print ("  As of:              " ++ date data) ;;
      print (NL ++ BOLD p ++ times "=" 50 ++ RESET p ++ NL)
  end.

(** ** Decimal to binary and back: [float(s)] and [repr(x)] *)

(** The rational [num / den] times [2^s], and times [10^s]. *)
Definition scale2 (num den s : Z) : Z * Z :=
  if 0 <=? s then (num * 2 ^ s, den) else (num, den * 2 ^ (- s)).

Definition scale10 (num den s : Z) : Z * Z :=
  if 0 <=? s then (num * 10 ^ s, den) else (num, den * 10 ^ (- s)).

(** The integer [l] with [2^l <= num / den < 2^(l+1)], for positive
    [num] and [den]. *)
Definition floor_log2 (num den : Z) : Z :=
  let l := Z.log2 num - Z.log2 den in
  let (a, b) := scale2 num den (- l) in
  if b <=? a then l else l - 1.

(** The binary64 number nearest to the positive rational [num / den],
    ties to the even mantissa: 53 bits of precision, exponents of the
    last bit from -1074 to 971. *)
Definition round_ratio (num den : Z) : spec_float :=
  let e := Z.max (floor_log2 num den - 52) (-1074) in
  let (a, b) := scale2 num den (- e) in
  let m := round_half_even a b in
  let (m', e') := if m =? 2 ^ 53 then (2 ^ 52, e + 1) else (m, e) in
  match m' with
  | Z.pos p => if 971 <? e' then S754_infinity false else S754_finite false p e'
  | _ => S754_zero false
  end.

(** The binary64 number nearest to [c * 10^k], for [c > 0]. *)
Definition round_decimal (c k : Z) : spec_float :=
  let (num, den) := scale10 c 1 k in round_ratio num den.

Definition with_sign (s : bool) (f : spec_float) : spec_float :=
  match f with
  | S754_zero _ => S754_zero s
  | S754_infinity _ => S754_infinity s
  | S754_nan => S754_nan
  | S754_finite _ m e => S754_finite s m e
  end.

(** [float(s)] for the decimal numeral [(-1)^neg * c * 10^k]. *)
Definition float_of_decimal (neg : bool) (c : N) (k : Z) : float :=
  match c with
  | N0 => SF2Prim (S754_zero neg)
  | Npos p => SF2Prim (with_sign neg (round_decimal (Z.pos p) k))
  end.

(** Does reading [c * 10^k] give back the float [m * 2^e]? *)
Definition rounds_to (m : positive) (e : Z) (c k : Z) : bool :=
  (0 <? c) &&
  match round_decimal c k with
  | S754_finite false m' e' => Pos.eqb m' m && (e' =? e)
  | _ => false
  end.

(** An upper estimate of the decimal exponent of [m * 2^e]: the number
    of bits times a bound of [log10 2], and a margin. *)
Definition decimal_exponent_bound (m : positive) (e : Z) : Z :=
  (Z.log2 (Z.pos m) + 1 + e) * 30103 / 100000 + 2.

(** The shortest decimal that reads back as [m * 2^e], as [(c, k)] for
    [c * 10^k]: the scale [10^k] goes down from [10^(fuel - 1074)]; at
    each scale the two multiples of [10^k] around the float are tried,
    and of two that read back the nearer one is taken, the even one on
    a tie.  At [10^-1074] every binary64 number is a multiple. *)
Fixpoint shortest (m : positive) (e : Z) (fuel : nat) : Z * Z :=
  let k := Z.of_nat fuel - 1074 in
  let (xn, xd) := scale2 (Z.pos m) 1 e in
  let (sn, sd) := scale10 xn xd (- k) in
  let lo := sn / sd in
  let r := sn mod sd in
  match fuel with
  | O => (lo, k)
  | S fuel' =>
      if r =? 0 then (lo, k)
      else
        let hi := lo + 1 in
        match rounds_to m e lo k, rounds_to m e hi k with
        | true, true =>
            match 2 * r ?= sd with
            | Lt => (lo, k)
            | Gt => (hi, k)
            | Eq => if Z.even lo then (lo, k) else (hi, k)
            end
        | true, false => (lo, k)
        | false, true => (hi, k)
        | false, false => shortest m e fuel'
        end
  end.

Definition shortest_decimal (m : positive) (e : Z) : Z * Z :=
  shortest m e (Z.to_nat (decimal_exponent_bound m e + 1074)).

(** The exponent of the scientific notation: a sign and at least two
    digits. *)
Definition exponent_text (x : Z) : string :=
  (if x <? 0 then "-" else "+") ++ zfill 2 (decimal (Z.abs_N x)).

(** [repr] of the positive float with shortest digits [ds] and decimal
    point after [decpt] of them: positional notation when
    [-4 < decpt <= 16], scientific notation otherwise. *)
Definition float_repr_digits (ds : string) (decpt : Z) : string :=
  let nd := Z.of_nat (String.length ds) in
  if (-4 <? decpt) && (decpt <=? 16) then
    if decpt <=? 0 then "0." ++ zeros (Z.to_nat (- decpt)) ++ ds
    else if nd <=? decpt then ds ++ zeros (Z.to_nat (decpt - nd)) ++ ".0"
    else substring 0 (Z.to_nat decpt) ds ++ "." ++
         substring (Z.to_nat decpt) (Z.to_nat (nd - decpt)) ds
  else
    substring 0 1 ds ++
    (if nd =? 1 then "" else "." ++ substring 1 (Z.to_nat (nd - 1)) ds) ++
    "e" ++ exponent_text (decpt - 1).

(** [float.__repr__(x)] *)
Definition float_repr (x : float) : string :=
  match Prim2SF x with
  | S754_nan => "nan"
  | S754_infinity s => minus s ++ "inf"
  | S754_zero s => minus s ++ "0.0"
  | S754_finite s m e =>
      let (c, k) := shortest_decimal m e in
      let ds := decimal (Z.to_N c) in
      minus s ++ float_repr_digits ds (Z.of_nat (String.length ds) + k)
  end.

(** ** JSON: [json.dumps(data, indent=2)] and [json.loads] *)

(** What [json.loads] can return.  A Python [str] is modelled by a
    string of code points below 256; a [dict] by its items in order. *)
Inductive jvalue : Type :=
  | JNull
  | JBool (b : bool)
  | JInt (z : Z)
  | JFloat (x : float)
  | JString (s : string)
  | JArray (items : list jvalue)
  | JObject (items : list (string * jvalue)).

(** The double quote. *)
Definition DQ : ascii := "034"%char.

Definition hex_digit (n : N) : ascii :=
  if (n <? 10)%N then ascii_of_N (48 + n) else ascii_of_N (87 + n).

(** One character of a string, as [json.dumps] writes it with
    [ensure_ascii]: printable ASCII stays, the rest is escaped. *)
Definition encode_char (c : ascii) : string :=
  let n := N_of_ascii c in
  if Ascii.eqb c DQ then String "\" (String DQ "")
  else if Ascii.eqb c "\" then "\\"
  else if (n =? 10)%N then "\n"
  else if (n =? 13)%N then "\r"
  else if (n =? 9)%N then "\t"
  else if (n =? 8)%N then "\b"
  else if (n =? 12)%N then "\f"
  else if ((32 <=? n) && (n <=? 126))%N then String c ""
  else "\u00" ++ String (hex_digit (n / 16)) (String (hex_digit (n mod 16)) "").

Fixpoint encode_chars (s : string) : string :=
  match s with
  | EmptyString => ""
  | String c rest => encode_char c ++ encode_chars rest
  end.

(** Between double quotes. *)
Definition quoted (s : string) : string := String DQ (s ++ String DQ "").

Definition encode_string (s : string) : string := quoted (encode_chars s).

(** [floatstr]: how the encoder writes a float. *)
Definition floatstr (x : float) : string :=
  match Prim2SF x with
  | S754_nan => "NaN"
  | S754_infinity false => "Infinity"
  | S754_infinity true => "-Infinity"
  | _ => float_repr x
  end.

(** [str(z)] for an integer. *)
Definition int_text (z : Z) : string :=
  (if z <? 0 then "-" else "") ++ decimal (Z.abs_N z).

(** The separator between items at nesting [level]: a comma, a newline
    and two spaces for each level. *)
Definition newline_indent (level : nat) : string := NL ++ times "  " level.

Fixpoint join (sep : string) (parts : list string) : string :=
  match parts with
  | [] => ""
  | [p] => p
  | p :: rest => p ++ sep ++ join sep rest
  end.

(** [json.dumps(v, indent=2)], for a value at nesting [level]. *)
Fixpoint encode (level : nat) (v : jvalue) : string :=
  match v with
  | JNull => "null"
  | JBool true => "true"
  | JBool false => "false"
  | JInt z => int_text z
  | JFloat x => floatstr x
  | JString s => encode_string s
  | JArray [] => "[]"
  | JArray items =>
      "[" ++ newline_indent (S level) ++
      join ("," ++ newline_indent (S level)) (map (encode (S level)) items) ++
      newline_indent level ++ "]"
  | JObject [] => "{}"
  | JObject items =>
      "{" ++ newline_indent (S level) ++
      join ("," ++ newline_indent (S level))
        (map (fun kv => encode_string (fst kv) ++ ": " ++ encode (S level) (snd kv)) items) ++
      newline_indent level ++ "}"
  end.

Definition json_dumps (v : jvalue) : string := encode 0 v.

(** *** Reading JSON *)

Definition is_digit (c : ascii) : bool :=
  ((48 <=? N_of_ascii c) && (N_of_ascii c <=? 57))%N.

Definition digit_value (c : ascii) : N := (N_of_ascii c - 48)%N.

Definition is_ws (c : ascii) : bool :=
  let n := N_of_ascii c in
  ((n =? 32) || (n =? 9) || (n =? 10) || (n =? 13))%N.

Fixpoint skip_ws (s : string) : string :=
  match s with
  | String c rest => if is_ws c then skip_ws rest else s
  | EmptyString => s
  end.

(** A run of digits: its value on top of [acc], how many there were,
    and the rest of the text. *)
Fixpoint scan_digits (s : string) (acc : N) (count : nat) : N * nat * string :=
  match s with
  | String c rest =>
      if is_digit c then scan_digits rest (10 * acc + digit_value c)%N (S count)
      else (acc, count, s)
  | EmptyString => (acc, count, s)
  end.

Definition starts_with_digit (s : string) : bool :=
  match s with
  | String c _ => is_digit c
  | EmptyString => false
  end.

(** The integer part of a number: a zero, or a run of digits that
    starts with another digit. *)
Definition scan_int_part (s : string) : option (N * string) :=
  match s with
  | EmptyString => None
  | String c rest =>
      if negb (is_digit c) then None
      else if Ascii.eqb c "0" then Some (0%N, rest)
      else let '(v, _, s') := scan_digits s 0 0 in Some (v, s')
  end.

(** The fraction, if there is one: a point and at least one digit.
    The digits go on top of the integer part [ip]; their count comes
    with them. *)
Definition scan_frac_part (ip : N) (s : string) : N * nat * string :=
  match s with
  | String d rest =>
      if Ascii.eqb d "." && starts_with_digit rest
      then scan_digits rest ip 0
      else (ip, 0%nat, s)
  | EmptyString => (ip, 0%nat, s)
  end.

(** The exponent, if there is one: [e] or [E], an optional sign and at
    least one digit. *)
Definition scan_exp_part (s : string) : Z * bool * string :=
  match s with
  | String d rest =>
      if Ascii.eqb d "e" || Ascii.eqb d "E" then
        let (eneg, s') :=
          match rest with
          | String g rest' =>
              if Ascii.eqb g "-" then (true, rest')
              else if Ascii.eqb g "+" then (false, rest')
              else (false, rest)
          | EmptyString => (false, rest)
          end in
        if starts_with_digit s' then
          let '(v, _, s'') := scan_digits s' 0 0 in
          (if eneg then - Z.of_N v else Z.of_N v, true, s'')
        else (0, false, s)
      else (0, false, s)
  | EmptyString => (0, false, s)
  end.

(** A number without its sign: an integer when it has neither fraction
    nor exponent, else a float. *)
Definition scan_unsigned (neg : bool) (s : string) : option (jvalue * string) :=
  match scan_int_part s with
  | None => None
  | Some (ip, s2) =>
      let '(mant, nfrac, s3) := scan_frac_part ip s2 in
      let '(ex, has_exp, s4) := scan_exp_part s3 in
      if negb (Nat.eqb nfrac 0) || has_exp
      then Some (JFloat (float_of_decimal neg mant (ex - Z.of_nat nfrac)), s4)
      else Some (JInt (if neg then - Z.of_N ip else Z.of_N ip), s4)
  end.

(** A number, as the scanner reads it: an optional minus sign, then a
    zero or a run of digits that starts with a non-zero one, then an
    optional point with digits, then an optional exponent. *)
Definition scan_number (s : string) : option (jvalue * string) :=
  match s with
  | String c rest =>
      if Ascii.eqb c "-" then scan_unsigned true rest else scan_unsigned false s
  | EmptyString => None
  end.

Definition hex_value (c : ascii) : option N :=
  let n := N_of_ascii c in
  if ((48 <=? n) && (n <=? 57))%N then Some (n - 48)%N
  else if ((97 <=? n) && (n <=? 102))%N then Some (n - 87)%N
  else if ((65 <=? n) && (n <=? 70))%N then Some (n - 55)%N
  else None.

(** The character an escape letter stands for. *)
Definition unescape (c : ascii) : option ascii :=
  if Ascii.eqb c DQ then Some DQ
  else if Ascii.eqb c "\" then Some "\"%char
  else if Ascii.eqb c "/" then Some "/"%char
  else if Ascii.eqb c "b" then Some "008"%char
  else if Ascii.eqb c "f" then Some "012"%char
  else if Ascii.eqb c "n" then Some "010"%char
  else if Ascii.eqb c "r" then Some "013"%char
  else if Ascii.eqb c "t" then Some "009"%char
  else None.

Definition prepend (c : ascii) (r : option (string * string)) : option (string * string) :=
  match r with
  | Some (s, rest) => Some (String c s, rest)
  | None => None
  end.

(** The text of a string, read from after its opening quote to its
    closing quote; control characters must be escaped, and a [\u]
    escape must name a code point below 256. *)
Fixpoint scan_string (s : string) : option (string * string) :=
  match s with
  | EmptyString => None
  | String c rest =>
      if Ascii.eqb c DQ then Some ("", rest)
      else if Ascii.eqb c "\" then
        match rest with
        | String e rest' =>
            if Ascii.eqb e "u" then
              match rest' with
              | String h1 (String h2 (String h3 (String h4 rest''))) =>
                  match hex_value h1, hex_value h2, hex_value h3, hex_value h4 with
                  | Some 0%N, Some 0%N, Some a, Some b =>
                      prepend (ascii_of_N (16 * a + b)) (scan_string rest'')
                  | _, _, _, _ => None
                  end
              | _ => None
              end
            else
              match unescape e with
              | Some c' => prepend c' (scan_string rest')
              | None => None
              end
        | EmptyString => None
        end
      else if (N_of_ascii c <? 32)%N then None
      else prepend c (scan_string rest)
  end.

Definition after_prefix (p s : string) : option string :=
  if String.prefix p s
  then Some (substring (String.length p) (String.length s - String.length p) s)
  else None.

Definition scan_literal (s : string) : option (jvalue * string) :=
  match after_prefix "NaN" s with
  | Some rest => Some (JFloat (SF2Prim S754_nan), rest)
  | None =>
  match after_prefix "Infinity" s with
  | Some rest => Some (JFloat (SF2Prim (S754_infinity false)), rest)
  | None =>
  match after_prefix "-Infinity" s with
  | Some rest => Some (JFloat (SF2Prim (S754_infinity true)), rest)
  | None => None
  end end end.

Section Scan.
(** The scanner for the values inside an array or an object. *)
Variable scan : string -> option (jvalue * string).

(** The items of an array, from its first value on. *)
Fixpoint scan_items (fuel : nat) (s : string) (acc : list jvalue)
    : option (jvalue * string) :=
  match fuel with
  | O => None
  | S fuel' =>
      match scan s with
      | None => None
      | Some (v, s1) =>
          match skip_ws s1 with
          | String c s2 =>
              if Ascii.eqb c "]" then Some (JArray (rev (v :: acc)), s2)
              else if Ascii.eqb c "," then scan_items fuel' (skip_ws s2) (v :: acc)
              else None
          | EmptyString => None
          end
      end
  end.

(** The members of an object, from the quote of its first key on. *)
Fixpoint scan_members (fuel : nat) (s : string) (acc : list (string * jvalue))
    : option (jvalue * string) :=
  match fuel with
  | O => None
  | S fuel' =>
      match s with
      | EmptyString => None
      | String q s0 =>
          if negb (Ascii.eqb q DQ) then None
          else
            match scan_string s0 with
            | None => None
            | Some (key, s1) =>
                match skip_ws s1 with
                | EmptyString => None
                | String c s2 =>
                    if negb (Ascii.eqb c ":") then None
                    else
                      match scan (skip_ws s2) with
                      | None => None
                      | Some (v, s3) =>
                          match skip_ws s3 with
                          | String d s4 =>
                              if Ascii.eqb d "}"
                              then Some (JObject (rev ((key, v) :: acc)), s4)
                              else if Ascii.eqb d ","
                              then scan_members fuel' (skip_ws s4) ((key, v) :: acc)
                              else None
                          | EmptyString => None
                          end
                      end
                end
            end
      end
  end.
End Scan.

(** One value at the head of the text, and the text after it. *)
Fixpoint scan_value (fuel : nat) (s : string) : option (jvalue * string) :=
  match fuel with
  | O => None
  | S fuel' =>
      match s with
      | EmptyString => None
      | String c rest =>
          if Ascii.eqb c DQ then
            match scan_string rest with
            | Some (str, rest') => Some (JString str, rest')
            | None => None
            end
          else if Ascii.eqb c "{" then
            match skip_ws rest with
            | String d rest' =>
                if Ascii.eqb d "}" then Some (JObject [], rest')
                else scan_members (scan_value fuel') fuel' (skip_ws rest) []
            | EmptyString => None
            end
          else if Ascii.eqb c "[" then
            match skip_ws rest with
            | String d rest' =>
                if Ascii.eqb d "]" then Some (JArray [], rest')
                else scan_items (scan_value fuel') fuel' (skip_ws rest) []
            | EmptyString => None
            end
          else
            match after_prefix "null" s with
            | Some rest' => Some (JNull, rest')
            | None =>
            match after_prefix "true" s with
            | Some rest' => Some (JBool true, rest')
            | None =>
            match after_prefix "false" s with
            | Some rest' => Some (JBool false, rest')
            | None =>
            match scan_number s with
            | Some r => Some r
            | None => scan_literal s
            end end end end
      end
  end.

(** [json.loads(s)]: one value, with white space around it and nothing
    else; [None] stands for [JSONDecodeError]. *)
Definition json_loads (s : string) : option jvalue :=
  match scan_value (String.length s) (skip_ws s) with
  | Some (v, rest) =>
      match skip_ws rest with
      | EmptyString => Some v
      | _ => None
      end
  | None => None
  end.

(** ** The JSON presenter and the entry point *)

(** The dictionary as [json.dumps] sees it: four items, in the order
    they were inserted. *)
Definition to_json (data : ReturnResult) : jvalue :=
  JObject [("current_price", JFloat (current_price data));
           ("year_ago_price", JFloat (year_ago_price data));
           ("year_return", JFloat (year_return data));
           ("date", JString (date data))].

(** [display_json(data)]; a dictionary with items is true. *)
Definition display_json (data : option ReturnResult) : IO unit :=
  enter Fdisplay_json ;;
  match data with
  | Some data => print (json_dumps (to_json data))
  | None => ret tt
  end.

(** The parsed command line: [args.json] and [args.no_color]. *)
Record Args : Type := {
  json : bool;
  no_color : bool
}.

(** [main()], from the parsed arguments on; the value is the exit
    status of the process: [sys.exit(1)], or 0 at the end of [main]. *)
Definition main (args : Args) (isatty : bool) (yf : Yahoo) : IO Z :=
  data <- get_sp500_year_return yf ;;
  match data with
  | None => ret 1
  | Some _ =>
      (if json args then display_json data
       else display_return data (negb (no_color args)) isatty) ;;
      ret 0
  end.

(** ** Sample runs *)

Definition day (y m d : N) : Timestamp := {| ts_year := y; ts_month := m; ts_day := d |}.

Definition bar (ts : Timestamp) (close : float) : Bar :=
  {| bar_index := ts; bar_close := close |}.

(** A provider that answers every request: [current] for the latest
    day, [historical] for the year. *)
Definition provider (current historical : DataFrame) : Yahoo :=
  {| yf_import := Returns tt;
     yf_Ticker := fun _ =>
       Returns {| history := fun period =>
                    if String.eqb period "1d" then Returns current
                    else Returns historical |} |}.

Definition yahoo_up : Yahoo :=
  provider [bar (day 2024 1 2) 5000]
           [bar (day 2023 1 3) 4500; bar (day 2023 6 1) 4800; bar (day 2024 1 2) 5000].

Definition yahoo_down : Yahoo :=
  provider [bar (day 2024 1 2) 4000]
           [bar (day 2023 1 3) 4500; bar (day 2023 6 1) 4200; bar (day 2024 1 2) 4000].

Definition text_args : Args := {| json := false; no_color := false |}.
Definition json_args : Args := {| json := true; no_color := false |}.

(** ** Specifications *)

(** The trace and the value of a fetch that gets both frames. *)
Definition fetched (cur hist : DataFrame) : IO (option ReturnResult) :=
  if empty cur then
    ([Enters Fget_sp500_year_return;
      Prints "Error: Could not fetch current S&P 500 data"], None)
  else if len hist <? 2 then
    ([Enters Fget_sp500_year_return;
      Prints "Error: Insufficient historical data"], None)
  else
    match iloc cur (-1), iloc hist 0 with
    | Returns last_bar, Returns first_bar =>
        if (bar_close first_bar =? 0)%float then
          ([Enters Fget_sp500_year_return;
            Prints ("Error fetching data: " ++ float_division_by_zero)], None)
        else
          ([Enters Fget_sp500_year_return],
           Some {| current_price := bar_close last_bar;
                   year_ago_price := bar_close first_bar;
                   year_return :=
                     ((bar_close last_bar - bar_close first_bar)
                        / bar_close first_bar * 100)%float;
                   date := strftime_Ymd (bar_index last_bar) |})
    | _, _ => ([Enters Fget_sp500_year_return], None)
    end.

(** Every character of [s] satisfies [p]. *)
Fixpoint all_chars (p : ascii -> bool) (s : string) : bool :=
  match s with
  | EmptyString => true
  | String c rest => p c && all_chars p rest
  end.

(** The escape character occurs in [s]: every ANSI escape sequence
    starts with it. *)
Fixpoint has_esc (s : string) : bool :=
  match s with
  | EmptyString => false
  | String c rest => Ascii.eqb c ESC || has_esc rest
  end.

(** A run of digits, a point and exactly two digits; [seen] tells
    whether a digit was read already. *)
Fixpoint digits_point_two (s : string) (seen : bool) : bool :=
  match s with
  | EmptyString => false
  | String c rest =>
      if is_digit c then digits_point_two rest true
      else
        seen && Ascii.eqb c "." &&
        match rest with
        | String d1 (String d2 EmptyString) => is_digit d1 && is_digit d2
        | _ => false
        end
  end.

(** A number written with exactly two decimal places, with or without
    a minus sign. *)
Definition two_decimals (s : string) : bool :=
  match s with
  | String c rest =>
      if Ascii.eqb c "-" then digits_point_two rest false
      else digits_point_two s false
  | EmptyString => false
  end.

Definition digit_or_comma (c : ascii) : bool := is_digit c || Ascii.eqb c ",".

(** Neither infinite nor a NaN. *)
Definition is_finite (x : float) : bool :=
  match Prim2SF x with
  | S754_zero _ | S754_finite _ _ _ => true
  | _ => false
  end.

(** A year in which the index gains more than binary64 can hold. *)
Definition yahoo_overflow : Yahoo :=
  provider [bar (day 2024 1 2) 1e308]
           [bar (day 2023 1 3) 1e-308; bar (day 2024 1 2) 1e308].

(** *** Arithmetic of the rounding *)

(** [2^s] and [10^s] as ratios: [pw s / pw (- s)] and [pt s / pt (- s)]. *)
Definition pw (z : Z) : Z := 2 ^ Z.max z 0.
Definition pt (z : Z) : Z := 10 ^ Z.max z 0.

(** [2^l <= num / den < 2^(l+1)], without division. *)
Definition bracket (num den l : Z) : Prop :=
  den * pw l <= num * pw (- l) < 2 * (den * pw l).

(** *** Values of digit strings *)

(** The number a run of digits adds to [acc]. *)
Fixpoint digits_acc (s : string) (acc : N) : N :=
  match s with
  | String c rest => digits_acc rest (10 * acc + digit_value c)%N
  | EmptyString => acc
  end.

Fixpoint uint_acc (d : Decimal.uint) (acc : N) : N :=
  match d with
  | Decimal.Nil => acc
  | Decimal.D0 l => uint_acc l (10 * acc)%N
  | Decimal.D1 l => uint_acc l (10 * acc + 1)%N
  | Decimal.D2 l => uint_acc l (10 * acc + 2)%N
  | Decimal.D3 l => uint_acc l (10 * acc + 3)%N
  | Decimal.D4 l => uint_acc l (10 * acc + 4)%N
  | Decimal.D5 l => uint_acc l (10 * acc + 5)%N
  | Decimal.D6 l => uint_acc l (10 * acc + 6)%N
  | Decimal.D7 l => uint_acc l (10 * acc + 7)%N
  | Decimal.D8 l => uint_acc l (10 * acc + 8)%N
  | Decimal.D9 l => uint_acc l (10 * acc + 9)%N
  end.

(** The text after a number does not go on as a number would. *)
Definition ends_number (rest : string) : bool :=
  match rest with
  | EmptyString => true
  | String c _ =>
      negb (is_digit c || Ascii.eqb c "." || Ascii.eqb c "e" || Ascii.eqb c "E")
  end.

(** ** More of the specification *)

(** What a handler of the [try] prints for an exception. *)
Definition handler_message (e : exn) : string :=
  match e with
  | ImportError => "Error: yfinance not installed. Run: pip3 install yfinance"
  | OtherException msg => "Error fetching data: " ++ msg
  end.

Definition yahoo_nan : Yahoo :=
  provider [bar (day 2024 1 2) nan]
           [bar (day 2023 1 3) 4500; bar (day 2024 1 2) nan].

Definition yahoo_flat : Yahoo :=
  provider [bar (day 2024 1 2) 4500]
           [bar (day 2023 1 3) 4500; bar (day 2024 1 2) 4500].

(** The text without its thousands separators. *)
Fixpoint without_commas (s : string) : string :=
  match s with
  | EmptyString => ""
  | String c rest =>
      if Ascii.eqb c "," then without_commas rest else String c (without_commas rest)
  end.

(** The text without its ANSI sequences: an escape character and what
    follows it up to the letter [m] are dropped; [inside] tells whether
    a sequence is open. *)
Fixpoint strip_ansi_from (s : string) (inside : bool) : string :=
  match s with
  | EmptyString => ""
  | String c rest =>
      if inside then strip_ansi_from rest (negb (Ascii.eqb c "m"))
      else if Ascii.eqb c ESC then strip_ansi_from rest true
      else String c (strip_ansi_from rest false)
  end.

Fixpoint ansi_state (s : string) (inside : bool) : bool :=
  match s with
  | EmptyString => inside
  | String c rest =>
      ansi_state rest (if inside then negb (Ascii.eqb c "m") else Ascii.eqb c ESC)
  end.

Definition strip_ansi (s : string) : string := strip_ansi_from s false.

(** Printable ASCII, or the newline of the indentation. *)
Definition json_char (c : ascii) : bool :=
  let n := N_of_ascii c in
  (((32 <=? n) && (n <=? 126)) || (n =? 10))%N.

(** A provider whose requests fail. *)
Definition yahoo_offline : Yahoo :=
  {| yf_import := Returns tt;
     yf_Ticker := fun _ =>
       Returns {| history := fun _ => Raises (OtherException "connection refused") |} |}.

(** A year of one bar, and a year whose oldest close is zero. *)
Definition yahoo_one_bar : Yahoo :=
  provider [bar (day 2024 1 2) 5000] [bar (day 2024 1 2) 5000].

Definition yahoo_zero_close : Yahoo :=
  provider [bar (day 2024 1 2) 5000]
           [bar (day 2023 1 3) 0; bar (day 2024 1 2) 5000].

(** * Properties *)

(** ** The model at work *)

Example text_output :
  printed (fst (main {| json := false; no_color := true |} true yahoo_up)) =
  [NL ++ times "=" 50;
   "       S&P 500 ONE-YEAR RETURN";
   times "=" 50 ++ NL;
   "  +11.11%";
   "";
   "Details:";
   "  Current Price:      $5,000.00";
   "  Price 1 Year Ago:   $4,500.00";
   "  As of:              2024-01-02";
   NL ++ times "=" 50 ++ NL].
Proof. vm_compute. reflexivity. Qed.

Example json_output :
  main json_args true yahoo_down =
  ([Enters Fget_sp500_year_return; Enters Fdisplay_json;
    Prints ("{" ++ NL ++
            "  " ++ quoted "current_price" ++ ": 4000.0," ++ NL ++
            "  " ++ quoted "year_ago_price" ++ ": 4500.0," ++ NL ++
            "  " ++ quoted "year_return" ++ ": -11.11111111111111," ++ NL ++
            "  " ++ quoted "date" ++ ": " ++ quoted "2024-01-02" ++ NL ++
            "}")], 0).
Proof. vm_compute. reflexivity. Qed.

Example division_by_zero :
  main text_args true (provider [bar (day 2024 1 2) 5000]
                                [bar (day 2023 1 3) 0; bar (day 2024 1 2) 5000]) =
  ([Enters Fget_sp500_year_return;
    Prints "Error fetching data: float division by zero"], 1).
Proof. reflexivity. Qed.

Example import_error :
  main text_args true {| yf_import := Raises ImportError;
                         yf_Ticker := fun _ => Raises ImportError |} =
  ([Enters Fget_sp500_year_return;
    Prints "Error: yfinance not installed. Run: pip3 install yfinance"], 1).
Proof. reflexivity. Qed.

Example format_2f_samples :
  map (format_2f true)
      [1234567.895; 999.995; 0.125; 0.375; (-0.001); (-0); infinity; nan]%float =
  ["1,234,567.90"; "1,000.00"; "0.12"; "0.38"; "-0.00"; "-0.00"; "inf"; "nan"].
Proof. vm_compute. reflexivity. Qed.

Example float_repr_samples :
  map float_repr
      [5000; 0.1; 1e22; 1e16; 123456789012345678; 0.0001; 0.00001; 1.5e-7;
       (0.1 + 0.2); (-2.5); 0x1p-1074]%float =
  ["5000.0"; "0.1"; "1e+22"; "1e+16"; "1.2345678901234568e+17"; "0.0001"; "1e-05";
   "1.5e-07"; "0.30000000000000004"; "-2.5"; "5e-324"].
Proof. vm_compute. reflexivity. Qed.

Example json_loads_samples :
  map json_loads ["12"; "-0.0"; "1e400"; "[1.5, null]"; "0123"; "NaN"] =
  [Some (JInt 12); Some (JFloat (-0)%float); Some (JFloat infinity);
   Some (JArray [JFloat 1.5%float; JNull]); None; Some (JFloat nan)].
Proof. vm_compute. reflexivity. Qed.

(** ** The fetch *)

Lemma iloc_last_nonempty (df : DataFrame) :
  empty df = false -> exists b, iloc df (-1) = Returns b.
Proof.
  destruct df as [|b0 df]; [discriminate|]. intros _.
  unfold iloc. simpl Z.eqb. cbv iota.
  destruct (rev (b0 :: df)) as [|b l] eqn:E.
  - apply (f_equal (@List.length Bar)) in E. rewrite length_rev in E. discriminate.
  - now exists b.
Qed.

Lemma iloc_first_two (df : DataFrame) :
  (len df <? 2) = false -> exists b rest, df = b :: rest /\ iloc df 0 = Returns b.
Proof.
  destruct df as [|b rest]; [discriminate|]. intros _. now exists b, rest.
Qed.


Lemma get_fetched (yf : Yahoo) (u : unit) (tk : Ticker) (cur hist : DataFrame) :
  yf_import yf = Returns u ->
  yf_Ticker yf "^GSPC" = Returns tk ->
  history tk "1d" = Returns cur ->
  history tk "1y" = Returns hist ->
  get_sp500_year_return yf = fetched cur hist.
Proof.
  intros Hi Ht Hc Hh.
  unfold get_sp500_year_return, fetch_body, fetched.
  rewrite Hi, Ht. cbn [andThen]. rewrite Hc. cbn [andThen].
  destruct (empty cur) eqn:Ec; [reflexivity|].
  destruct (iloc_last_nonempty cur Ec) as [lb Hlb]. rewrite Hlb. cbn [andThen].
  rewrite Hh. cbn [andThen].
  destruct (len hist <? 2) eqn:El; [reflexivity|].
  destruct (iloc_first_two hist El) as [fb [rest [_ Hfb]]]. rewrite Hfb. cbn [andThen].
  unfold truediv.
  destruct (bar_close fb =? 0)%float; reflexivity.
Qed.

(** Case analysis along [fetch_body]: every request returns or
    raises, and every test goes one way or the other; [tac] closes the
    exits. *)
Ltac walk_fetch tac :=
  unfold fetch_body;
  repeat first
    [ progress cbn [andThen]
    | match goal with
      | |- context [if ?b then _ else _] => destruct b eqn:?
      | |- context [andThen ?m _] =>
          lazymatch m with
          | truediv _ _ => unfold truediv
          | _ => destruct m as [?|[|?]] eqn:?
          end
      end ];
  tac.

(** Every exit of the fetch that carries a result went through the
    division and the multiplication of line 38. *)
Lemma fetch_body_result (yf : Yahoo) (t : list event) (r : ReturnResult) :
  fetch_body yf = (t, Returns (Some r)) ->
  year_return r =
    ((current_price r - year_ago_price r) / year_ago_price r * 100)%float.
Proof.
  walk_fetch ltac:(try discriminate). intros [= _ <-]. reflexivity.
Qed.

Lemma get_result (yf : Yahoo) (r : ReturnResult) :
  snd (get_sp500_year_return yf) = Some r ->
  exists t, fetch_body yf = (t, Returns (Some r)).
Proof.
  unfold get_sp500_year_return.
  destruct (fetch_body yf) as [t [data|[|msg]]]; cbn; intro H; try discriminate.
  subst data. now exists t.
Qed.

(** C1: whenever the fetch returns a result whose two prices are
    positive, its [year_return] is
    [(current_price - year_ago_price) / year_ago_price * 100] computed
    in binary64, as it stands, with no rounding of the result. *)
Theorem year_return_formula (yf : Yahoo) (r : ReturnResult) :
  snd (get_sp500_year_return yf) = Some r ->
  (0 <? current_price r)%float = true ->
  (0 <? year_ago_price r)%float = true ->
  year_return r =
    ((current_price r - year_ago_price r) / year_ago_price r * 100)%float.
Proof.
  intros H _ _. destruct (get_result yf r H) as [t Ht].
  exact (fetch_body_result yf t r Ht).
Qed.

Lemma year_return_formula_witness :
  year_return {| current_price := 5000; year_ago_price := 4500;
                 year_return := ((5000 - 4500) / 4500 * 100)%float;
                 date := "2024-01-02" |} =
  ((5000 - 4500) / 4500 * 100)%float.
Proof.
  apply (year_return_formula yahoo_up
           {| current_price := 5000; year_ago_price := 4500;
              year_return := ((5000 - 4500) / 4500 * 100)%float;
              date := "2024-01-02" |}); reflexivity.
Defined.

(** The fetch enters no other function of the module. *)
Lemma get_called (yf : Yahoo) :
  called (fst (get_sp500_year_return yf)) = [Fget_sp500_year_return].
Proof.
  unfold get_sp500_year_return.
  destruct (fetch_body yf) as [t o] eqn:E. revert E.
  walk_fetch ltac:(intros [= <- <-]; reflexivity).
Qed.

Lemma bind_pair {A B} (t : list event) (a : A) (k : A -> IO B) :
  bind (t, a) k = ((t ++ fst (k a))%list, snd (k a)).
Proof. unfold bind. now destruct (k a). Qed.

Lemma bind_then_ret {A B} (m : IO A) (b : B) :
  bind m (fun _ => ret b) = (fst m, b).
Proof. destruct m as [t a]. unfold bind, ret. now rewrite app_nil_r. Qed.

(** C2: a run whose fetch yields a result enters one presenter, the
    JSON one under [--json] and the text one otherwise, prints what it
    prints and exits with status 0; a run whose fetch yields nothing
    enters no presenter, prints nothing beyond the fetch's message and
    exits with status 1. *)
Theorem main_exit_status (args : Args) (isatty : bool) (yf : Yahoo) :
  match snd (get_sp500_year_return yf) with
  | Some r =>
      let presenter :=
        if json args then display_json (Some r)
        else display_return (Some r) (negb (no_color args)) isatty in
      main args isatty yf = (fst (get_sp500_year_return yf) ++ fst presenter, 0)%list /\
      called (fst presenter) = [if json args then Fdisplay_json else Fdisplay_return]
  | None =>
      main args isatty yf = (fst (get_sp500_year_return yf), 1) /\
      called (fst (main args isatty yf)) = [Fget_sp500_year_return]
  end.
Proof.
  unfold main. pose proof (get_called yf) as Hc.
  destruct (get_sp500_year_return yf) as [t [r|]]; cbn [fst snd] in *;
    rewrite bind_pair; cbv beta iota.
  - split; [|destruct (json args); reflexivity].
    now rewrite bind_then_ret.
  - unfold ret. cbn [fst snd]. rewrite app_nil_r. now split.
Qed.

(** C3, as the code has it: once the latest bar is there, a year of
    fewer than two bars ends the fetch with the message of insufficient
    history and no result; a year of two bars or more whose oldest
    close is not zero gives a result, and the [year_ago_price] of that
    result is the oldest close. *)
Theorem insufficient_history (yf : Yahoo) (u : unit) (tk : Ticker)
    (cur hist : DataFrame) :
  yf_import yf = Returns u ->
  yf_Ticker yf "^GSPC" = Returns tk ->
  history tk "1d" = Returns cur ->
  empty cur = false ->
  history tk "1y" = Returns hist ->
  (len hist < 2 ->
   get_sp500_year_return yf =
     ([Enters Fget_sp500_year_return;
       Prints "Error: Insufficient historical data"], None)) /\
  (2 <= len hist ->
   forall oldest rest,
     hist = oldest :: rest ->
     (bar_close oldest =? 0)%float = false ->
     exists r,
       get_sp500_year_return yf = ([Enters Fget_sp500_year_return], Some r) /\
       year_ago_price r = bar_close oldest).
Proof.
  intros Hi Ht Hc Hne Hh.
  rewrite (get_fetched yf u tk cur hist Hi Ht Hc Hh). unfold fetched. rewrite Hne.
  split; intro Hl.
  - apply Z.ltb_lt in Hl. now rewrite Hl.
  - intros oldest rest Hhist Hz.
    assert (El : (len hist <? 2) = false) by (apply Z.ltb_ge; lia). rewrite El.
    destruct (iloc_last_nonempty cur Hne) as [lb Hlb]. rewrite Hlb.
    subst hist. cbn [iloc Z.eqb]. rewrite Hz.
    eexists. split; reflexivity.
Qed.

Lemma insufficient_history_witness :
  get_sp500_year_return yahoo_one_bar =
    ([Enters Fget_sp500_year_return;
      Prints "Error: Insufficient historical data"], None) /\
  exists r,
    get_sp500_year_return yahoo_up = ([Enters Fget_sp500_year_return], Some r) /\
    year_ago_price r = 4500%float.
Proof.
  split.
  - apply (proj1 (insufficient_history yahoo_one_bar tt
                    {| history := fun period =>
                         if String.eqb period "1d" then Returns [bar (day 2024 1 2) 5000]
                         else Returns [bar (day 2024 1 2) 5000] |}
                    [bar (day 2024 1 2) 5000] [bar (day 2024 1 2) 5000]
                    eq_refl eq_refl eq_refl eq_refl eq_refl)).
    reflexivity.
  - apply (proj2 (insufficient_history yahoo_up tt
                    {| history := fun period =>
                         if String.eqb period "1d" then Returns [bar (day 2024 1 2) 5000]
                         else Returns [bar (day 2023 1 3) 4500; bar (day 2023 6 1) 4800;
                                       bar (day 2024 1 2) 5000] |}
                    [bar (day 2024 1 2) 5000]
                    [bar (day 2023 1 3) 4500; bar (day 2023 6 1) 4800;
                     bar (day 2024 1 2) 5000]
                    eq_refl eq_refl eq_refl eq_refl eq_refl)
             ltac:(discriminate)
             (bar (day 2023 1 3) 4500)
             [bar (day 2023 6 1) 4800; bar (day 2024 1 2) 5000]
             eq_refl eq_refl).
Defined.

(** C3 as it is worded fails for a year of two bars whose oldest close
    is zero: the test of line 32 passes, the division of line 38
    raises, and the fetch returns no result. *)
Lemma zero_close_no_result :
  2 <= len [bar (day 2023 1 3) 0; bar (day 2024 1 2) 5000] /\
  get_sp500_year_return yahoo_zero_close =
    ([Enters Fget_sp500_year_return;
      Prints "Error fetching data: float division by zero"], None).
Proof. split; [discriminate|reflexivity]. Qed.

(** C4: when the request for the latest day returns an empty frame,
    the fetch prints its message for that case and returns no result,
    and the whole output of the run is that one line, with exit
    status 1: no field of a result is printed, as text or as JSON. *)
Theorem no_current_data (yf : Yahoo) (u : unit) (tk : Ticker) :
  yf_import yf = Returns u ->
  yf_Ticker yf "^GSPC" = Returns tk ->
  history tk "1d" = Returns [] ->
  get_sp500_year_return yf =
    ([Enters Fget_sp500_year_return;
      Prints "Error: Could not fetch current S&P 500 data"], None) /\
  forall (args : Args) (isatty : bool),
    main args isatty yf =
      ([Enters Fget_sp500_year_return;
        Prints "Error: Could not fetch current S&P 500 data"], 1).
Proof.
  intros Hi Ht Hc.
  assert (E : get_sp500_year_return yf =
    ([Enters Fget_sp500_year_return;
      Prints "Error: Could not fetch current S&P 500 data"], None)).
  { unfold get_sp500_year_return, fetch_body.
    rewrite Hi, Ht. cbn [andThen]. rewrite Hc. reflexivity. }
  split; [exact E|]. intros args isatty. unfold main. rewrite E. reflexivity.
Qed.

Lemma no_current_data_witness :
  get_sp500_year_return (provider [] [bar (day 2023 1 3) 4500]) =
    ([Enters Fget_sp500_year_return;
      Prints "Error: Could not fetch current S&P 500 data"], None) /\
  forall (args : Args) (isatty : bool),
    main args isatty (provider [] [bar (day 2023 1 3) 4500]) =
      ([Enters Fget_sp500_year_return;
        Prints "Error: Could not fetch current S&P 500 data"], 1).
Proof.
  apply (no_current_data (provider [] [bar (day 2023 1 3) 4500]) tt
           {| history := fun period =>
                if String.eqb period "1d" then Returns []
                else Returns [bar (day 2023 1 3) 4500] |}); reflexivity.
Defined.

(** ** The presenters *)

(** C9: called with no result, the text presenter prints nothing and
    returns, whatever the color flag and the terminal. *)
Theorem display_return_none (colorize isatty : bool) :
  display_return None colorize isatty = ([Enters Fdisplay_return], tt) /\
  printed (fst (display_return None colorize isatty)) = [].
Proof. split; reflexivity. Qed.

Lemma get_printed_nothing (yf : Yahoo) (r : ReturnResult) :
  snd (get_sp500_year_return yf) = Some r ->
  printed (fst (get_sp500_year_return yf)) = [].
Proof.
  unfold get_sp500_year_return.
  destruct (fetch_body yf) as [t o] eqn:E. revert E.
  walk_fetch ltac:(intros [= <- <-]; try discriminate; reflexivity).
Qed.

Lemma printed_app (t1 t2 : list event) :
  printed (t1 ++ t2) = (printed t1 ++ printed t2)%list.
Proof.
  induction t1 as [|[f|s] t1 IH]; cbn; [reflexivity|exact IH|now rewrite IH].
Qed.

(** What a run with a result prints is what its presenter prints. *)
Lemma main_printed (args : Args) (isatty : bool) (yf : Yahoo) (r : ReturnResult) :
  snd (get_sp500_year_return yf) = Some r ->
  printed (fst (main args isatty yf)) =
    if json args then [json_dumps (to_json r)]
    else printed (fst (display_return (Some r) (negb (no_color args)) isatty)).
Proof.
  intro H. pose proof (get_printed_nothing yf r H) as Hp. unfold main.
  destruct (get_sp500_year_return yf) as [t d]. cbn [fst snd] in *. subst d.
  rewrite bind_pair. cbv beta iota. rewrite bind_then_ret. cbn [fst].
  rewrite printed_app, Hp. destruct (json args); reflexivity.
Qed.

(** C10: the output of a rendering is a function of the result, the
    color flag and the terminal status alone, and of the result alone
    in JSON mode: two runs that agree on them print the same text,
    whatever else differs in what the provider answered. *)
Theorem rendering_deterministic (a1 a2 : Args) (tty1 tty2 : bool)
    (yf1 yf2 : Yahoo) (r : ReturnResult) :
  snd (get_sp500_year_return yf1) = Some r ->
  snd (get_sp500_year_return yf2) = Some r ->
  (json a1 = false -> json a2 = false -> no_color a1 = no_color a2 -> tty1 = tty2 ->
   printed (fst (main a1 tty1 yf1)) = printed (fst (main a2 tty2 yf2))) /\
  (json a1 = true -> json a2 = true ->
   printed (fst (main a1 tty1 yf1)) = printed (fst (main a2 tty2 yf2))).
Proof.
  intros H1 H2.
  rewrite (main_printed a1 tty1 yf1 r H1), (main_printed a2 tty2 yf2 r H2).
  split.
  - intros -> -> -> ->. reflexivity.
  - intros -> ->. reflexivity.
Qed.

Lemma rendering_deterministic_witness :
  (json text_args = false -> json text_args = false ->
   no_color text_args = no_color text_args -> true = true ->
   printed (fst (main text_args true yahoo_up)) =
   printed (fst (main text_args true
     (provider [bar (day 2024 1 2) 5000]
               [bar (day 2023 1 3) 4500; bar (day 2024 1 2) 5000])))) /\
  (json text_args = true -> json text_args = true ->
   printed (fst (main text_args true yahoo_up)) =
   printed (fst (main text_args true
     (provider [bar (day 2024 1 2) 5000]
               [bar (day 2023 1 3) 4500; bar (day 2024 1 2) 5000])))).
Proof.
  apply (rendering_deterministic text_args text_args true true yahoo_up
           (provider [bar (day 2024 1 2) 5000]
                     [bar (day 2023 1 3) 4500; bar (day 2024 1 2) 5000])
           {| current_price := 5000; year_ago_price := 4500;
              year_return := ((5000 - 4500) / 4500 * 100)%float;
              date := "2024-01-02" |}); reflexivity.
Defined.

(** *** Characters of the formatted numbers *)

Lemma all_chars_app (p : ascii -> bool) (a b : string) :
  all_chars p (a ++ b) = all_chars p a && all_chars p b.
Proof. induction a as [|c a IH]; cbn; [reflexivity|]. now rewrite IH, andb_assoc. Qed.

Lemma all_chars_weaken (p q : ascii -> bool) (s : string) :
  (forall c, p c = true -> q c = true) ->
  all_chars p s = true -> all_chars q s = true.
Proof.
  intros Hpq. induction s as [|c s IH]; cbn; [reflexivity|].
  intros [Hc Hs]%andb_prop. now rewrite (Hpq c Hc), IH.
Qed.

Lemma string_of_uint_digits (d : Decimal.uint) :
  all_chars is_digit (NilEmpty.string_of_uint d) = true.
Proof. induction d; cbn; auto. Qed.

Lemma decimal_digits (n : N) : all_chars is_digit (decimal n) = true.
Proof.
  unfold decimal, NilZero.string_of_uint.
  destruct (N.to_uint n); try reflexivity; apply string_of_uint_digits.
Qed.

Lemma decimal_nonempty (n : N) : exists c rest, decimal n = String c rest.
Proof.
  unfold decimal, NilZero.string_of_uint.
  destruct (N.to_uint n); cbn; eauto.
Qed.

Lemma zeros_digits (k : nat) : all_chars is_digit (zeros k) = true.
Proof. induction k; cbn; auto. Qed.

Lemma zfill_digits (w : nat) (s : string) :
  all_chars is_digit s = true -> all_chars is_digit (zfill w s) = true.
Proof. intro H. unfold zfill. now rewrite all_chars_app, zeros_digits, H. Qed.

(** Below a hundred, two characters, both digits. *)
Lemma zfill2_small (k : nat) :
  (k < 100)%nat ->
  exists d1 d2, zfill 2 (decimal (N.of_nat k)) = String d1 (String d2 "") /\
                is_digit d1 = true /\ is_digit d2 = true.
Proof.
  intro H.
  do 100 (destruct k as [|k]; [do 2 eexists; repeat split; reflexivity|]).
  lia.
Qed.

Lemma zfill2_mod100 (n : N) :
  exists d1 d2, zfill 2 (decimal (n mod 100)) = String d1 (String d2 "") /\
                is_digit d1 = true /\ is_digit d2 = true.
Proof.
  rewrite <- (N2Nat.id (n mod 100)). apply zfill2_small.
  pose proof (N.mod_lt n 100). lia.
Qed.

Lemma digits_point_two_app (ip : string) (d1 d2 : ascii) (seen : bool) :
  all_chars is_digit ip = true ->
  (seen = true \/ ip <> "") ->
  is_digit d1 = true -> is_digit d2 = true ->
  digits_point_two (ip ++ "." ++ String d1 (String d2 "")) seen = true.
Proof.
  intros Hip Hne H1 H2. revert seen Hne.
  induction ip as [|c ip IH]; intros seen Hne.
  - destruct Hne as [->|Hne]; [|congruence]. cbn. now rewrite H1, H2.
  - cbn in Hip. apply andb_prop in Hip as [Hc Hip].
    cbn [append digits_point_two]. rewrite Hc. apply IH; auto.
Qed.

Lemma fixed2_two_decimals (n : N) :
  digits_point_two (fixed2 false n) false = true.
Proof.
  unfold fixed2. destruct (zfill2_mod100 n) as [d1 [d2 [-> [H1 H2]]]].
  apply digits_point_two_app; auto using decimal_digits.
  right. destruct (decimal_nonempty (n / 100)) as [c [rest ->]]. discriminate.
Qed.

Lemma fixed2_starts_with_digit (n : N) :
  exists c rest, fixed2 false n = String c rest /\ is_digit c = true.
Proof.
  unfold fixed2. pose proof (decimal_digits (n / 100)) as Hd.
  destruct (decimal_nonempty (n / 100)) as [c [rest E]]. rewrite E in *.
  cbn in Hd. apply andb_prop in Hd as [Hc _]. exists c. eexists. split; [reflexivity|exact Hc].
Qed.

Lemma minus_fixed2_two_decimals (s : bool) (n : N) :
  two_decimals (minus s ++ fixed2 false n) = true.
Proof.
  destruct s; cbn [minus append].
  - cbn. apply fixed2_two_decimals.
  - destruct (fixed2_starts_with_digit n) as [c [rest [E Hc]]].
    pose proof (fixed2_two_decimals n) as H. rewrite E in *.
    unfold two_decimals.
    destruct (Ascii.eqb_spec c "-") as [->|_]; [discriminate|exact H].
Qed.

(** A finite float formats to exactly two decimal places. *)
Lemma format_2f_two_decimals (x : float) :
  is_finite x = true -> two_decimals (format_2f false x) = true.
Proof.
  unfold is_finite, format_2f.
  destruct (Prim2SF x); try discriminate; intros _; apply minus_fixed2_two_decimals.
Qed.

(** *** The sign and the color *)

Lemma negative_sign_bit (v : float) :
  (v <? 0)%float = true ->
  (0 <=? v)%float = false /\
  ((exists m e, Prim2SF v = S754_finite true m e) \/ Prim2SF v = S754_infinity true).
Proof.
  rewrite ltb_spec, leb_spec.
  change (Prim2SF 0) with (S754_zero false).
  destruct (Prim2SF v) as [s|s| |s m e]; cbn; try discriminate.
  - destruct s; [|discriminate]. intros _. split; [reflexivity|now right].
  - destruct s; [|discriminate]. intros _. split; [reflexivity|left; eauto].
Qed.

Lemma negative_format_minus (v : float) :
  (v <? 0)%float = true -> exists rest, format_2f false v = String "-" rest.
Proof.
  intro H. destruct (negative_sign_bit v H) as [_ [[m [e E]]|E]];
    unfold format_2f; rewrite E; cbn [minus append]; eauto.
Qed.

(** The fourth line the text presenter prints is the return line. *)
Lemma display_return_line (r : ReturnResult) (colorize isatty : bool) :
  nth 3 (printed (fst (display_return (Some r) colorize isatty))) "" =
  return_line (palette colorize isatty) (year_return r).
Proof. reflexivity. Qed.

(** C6, as the code has it: a return that is not below zero is printed
    with a leading plus sign, in green on a colorized terminal; a
    return below zero is printed with the minus sign of the number and
    no plus sign, in red on a colorized terminal; a finite return is
    printed with exactly two decimal places and a percent sign. *)
Theorem sign_rule (r : ReturnResult) (colorize isatty : bool) :
  let p := palette colorize isatty in
  let v := year_return r in
  let line := nth 3 (printed (fst (display_return (Some r) colorize isatty))) "" in
  ((0 <=? v)%float = true ->
   line = BOLD p ++ GREEN p ++ "  " ++ ("+" ++ format_2f false v ++ "%") ++ RESET p /\
   (colorize && isatty = true -> GREEN p = String ESC "[92m")) /\
  ((v <? 0)%float = true ->
   line = BOLD p ++ RED p ++ "  " ++ (format_2f false v ++ "%") ++ RESET p /\
   (exists rest, format_2f false v = String "-" rest) /\
   (colorize && isatty = true -> RED p = String ESC "[91m")) /\
  (is_finite v = true -> two_decimals (format_2f false v) = true).
Proof.
  cbv zeta. rewrite display_return_line.
  unfold return_line, percentage, color, sign.
  split; [|split]; [intros H; split|intros H; repeat split|].
  - now rewrite H.
  - unfold palette. now intros ->.
  - destruct (negative_sign_bit _ H) as [-> _]. reflexivity.
  - now apply negative_format_minus.
  - unfold palette. now intros ->.
  - apply format_2f_two_decimals.
Qed.

Lemma sign_rule_witness :
  nth 3 (printed (fst (display_return
           (Some {| current_price := 4000; year_ago_price := 4500;
                    year_return := ((4000 - 4500) / 4500 * 100)%float;
                    date := "2024-01-02" |}) true true))) "" =
    String ESC "[1m" ++ String ESC "[91m" ++ "  -11.11%" ++ String ESC "[0m" /\
  two_decimals "-11.11" = true.
Proof.
  pose proof (sign_rule {| current_price := 4000; year_ago_price := 4500;
                           year_return := ((4000 - 4500) / 4500 * 100)%float;
                           date := "2024-01-02" |} true true) as [_ [Hneg Hfin]].
  split.
  - exact (proj1 (Hneg eq_refl)).
  - exact (Hfin eq_refl).
Defined.

(** C6 as it is worded fails for a return that overflows to infinity:
    two positive closes give it, it is not below zero, and it is
    printed as [+inf%], with no decimal places. *)
Lemma sign_rule_infinite_return :
  snd (get_sp500_year_return yahoo_overflow) =
    Some {| current_price := 1e308; year_ago_price := 1e-308;
            year_return := infinity; date := "2024-01-02" |} /\
  (0 <? 1e308)%float = true /\ (0 <? 1e-308)%float = true /\
  (0 <=? infinity)%float = true /\
  nth 3 (printed (fst (main {| json := false; no_color := true |} false yahoo_overflow))) ""
    = "  +inf%" /\
  two_decimals (format_2f false infinity) = false.
Proof. repeat split; vm_compute; reflexivity. Qed.

(** *** Escape sequences *)

Lemma has_esc_app (a b : string) : has_esc (a ++ b) = has_esc a || has_esc b.
Proof. induction a as [|c a IH]; cbn; [reflexivity|]. now rewrite IH, orb_assoc. Qed.

Lemma all_chars_no_esc (p : ascii -> bool) (s : string) :
  p ESC = false -> all_chars p s = true -> has_esc s = false.
Proof.
  intros Hp. induction s as [|c s IH]; cbn; [reflexivity|].
  intros [Hc Hs]%andb_prop. rewrite (IH Hs), orb_false_r.
  destruct (Ascii.eqb_spec c ESC) as [->|]; congruence.
Qed.

Lemma digits_no_esc (s : string) : all_chars is_digit s = true -> has_esc s = false.
Proof. now apply all_chars_no_esc. Qed.

Lemma all_chars_string_of_list (p : ascii -> bool) (l : list ascii) :
  all_chars p (string_of_list_ascii l) = forallb p l.
Proof. induction l as [|c l IH]; cbn; [reflexivity|]. now rewrite IH. Qed.

Lemma forallb_list_of_string (p : ascii -> bool) (s : string) :
  forallb p (list_ascii_of_string s) = all_chars p s.
Proof. induction s as [|c s IH]; cbn; [reflexivity|]. now rewrite IH. Qed.

Lemma forallb_rev' (p : ascii -> bool) (l : list ascii) :
  forallb p (rev l) = forallb p l.
Proof.
  induction l as [|c l IH]; cbn; [reflexivity|].
  rewrite forallb_app, IH. cbn. rewrite andb_true_r. apply andb_comm.
Qed.

Lemma group_rev_chars (l : list ascii) (k : nat) :
  forallb is_digit l = true -> forallb digit_or_comma (group_rev l k) = true.
Proof.
  revert k. induction l as [|c l IH]; intros k; cbn; [reflexivity|].
  intros [Hc Hl]%andb_prop.
  destruct k; cbn; unfold digit_or_comma at 1; rewrite Hc; cbn; auto.
Qed.

Lemma thousands_chars (s : string) :
  all_chars is_digit s = true -> all_chars digit_or_comma (thousands s) = true.
Proof.
  intro H. unfold thousands.
  rewrite all_chars_string_of_list, forallb_rev'. apply group_rev_chars.
  now rewrite forallb_rev', forallb_list_of_string.
Qed.

Lemma fixed2_no_esc (g : bool) (n : N) : has_esc (fixed2 g n) = false.
Proof.
  unfold fixed2. rewrite !has_esc_app.
  rewrite (digits_no_esc (zfill 2 _)) by (apply zfill_digits, decimal_digits).
  destruct g.
  - rewrite (all_chars_no_esc digit_or_comma); auto using thousands_chars, decimal_digits.
  - rewrite digits_no_esc; auto using decimal_digits.
Qed.

Lemma format_2f_no_esc (g : bool) (x : float) : has_esc (format_2f g x) = false.
Proof.
  unfold format_2f.
  destruct (Prim2SF x) as [s|s| |s m e]; rewrite ?has_esc_app, ?fixed2_no_esc;
    try destruct s; reflexivity.
Qed.

Lemma strftime_no_esc (ts : Timestamp) : has_esc (strftime_Ymd ts) = false.
Proof.
  unfold strftime_Ymd. rewrite !has_esc_app.
  rewrite (digits_no_esc (zfill 4 _)) by (apply zfill_digits, decimal_digits).
  rewrite (digits_no_esc (zfill 2 (decimal (ts_month ts))))
    by (apply zfill_digits, decimal_digits).
  rewrite (digits_no_esc (zfill 2 (decimal (ts_day ts))))
    by (apply zfill_digits, decimal_digits).
  reflexivity.
Qed.

(** C7: for a result whose date is a formatted day, the text the
    presenter writes holds an escape character exactly when colors
    were asked for and the stream is a terminal; on any other stream
    it holds none, whatever the flag. *)
Theorem no_escape_off_terminal (r : ReturnResult) (ts : Timestamp)
    (colorize isatty : bool) :
  date r = strftime_Ymd ts ->
  let text c t := stdout_text (printed (fst (display_return (Some r) c t))) in
  has_esc (text colorize false) = false /\
  has_esc (text colorize isatty) = colorize && isatty.
Proof.
  intros Hd. cbv zeta.
  assert (P : forall c t, has_esc
     (stdout_text (printed (fst (display_return (Some r) c t)))) = c && t).
  { intros c t. unfold display_return, bind, enter, print, ret.
    cbn [fst snd app printed stdout_text]. rewrite Hd.
    unfold return_line, percentage, color, sign, format_price, palette.
    destruct (c && t); cbn [BOLD RESET GREEN RED].
    - reflexivity.
    - repeat (rewrite has_esc_app || cbn [has_esc append]).
      rewrite !format_2f_no_esc, strftime_no_esc.
      destruct (0 <=? year_return r)%float; reflexivity. }
  split; [rewrite P; apply andb_false_r|apply P].
Qed.

Lemma no_escape_off_terminal_witness :
  has_esc (stdout_text (printed (fst (display_return
    (Some {| current_price := 5000; year_ago_price := 4500;
             year_return := ((5000 - 4500) / 4500 * 100)%float;
             date := strftime_Ymd (day 2024 1 2) |}) true false)))) = false /\
  has_esc (stdout_text (printed (fst (display_return
    (Some {| current_price := 5000; year_ago_price := 4500;
             year_return := ((5000 - 4500) / 4500 * 100)%float;
             date := strftime_Ymd (day 2024 1 2) |}) true true)))) = true && true.
Proof.
  apply (no_escape_off_terminal
    {| current_price := 5000; year_ago_price := 4500;
       year_return := ((5000 - 4500) / 4500 * 100)%float;
       date := strftime_Ymd (day 2024 1 2) |} (day 2024 1 2) true true).
  reflexivity.
Defined.

(** C8: from closes of 4500 and 5000 the return formats to [11.11]
    and the text output shows [+11.11%], in green on a colorized
    terminal; from 4500 and 4000 it formats to [-11.11] and the output
    shows [-11.11%], in red on a colorized terminal. *)
Theorem worked_examples :
  (exists r, snd (get_sp500_year_return yahoo_up) = Some r /\
     current_price r = 5000%float /\ year_ago_price r = 4500%float /\
     format_2f false (year_return r) = "11.11" /\
     percentage (year_return r) = "+11.11%") /\
  nth 3 (printed (fst (main {| json := false; no_color := true |} true yahoo_up))) ""
    = "  +11.11%" /\
  nth 3 (printed (fst (main text_args false yahoo_up))) "" = "  +11.11%" /\
  nth 3 (printed (fst (main text_args true yahoo_up))) ""
    = String ESC "[1m" ++ String ESC "[92m" ++ "  +11.11%" ++ String ESC "[0m" /\
  (exists r, snd (get_sp500_year_return yahoo_down) = Some r /\
     current_price r = 4000%float /\ year_ago_price r = 4500%float /\
     format_2f false (year_return r) = "-11.11" /\
     percentage (year_return r) = "-11.11%") /\
  nth 3 (printed (fst (main text_args false yahoo_down))) "" = "  -11.11%" /\
  nth 3 (printed (fst (main text_args true yahoo_down))) ""
    = String ESC "[1m" ++ String ESC "[91m" ++ "  -11.11%" ++ String ESC "[0m".
Proof.
  repeat split; try (vm_compute; reflexivity);
    eexists; repeat split; vm_compute; reflexivity.
Qed.

(** ** Reading decimals: the rounding *)

Lemma pw_pos z : 0 < pw z.
Proof. unfold pw. apply Z.pow_pos_nonneg; lia. Qed.

Lemma pt_pos z : 0 < pt z.
Proof. unfold pt. apply Z.pow_pos_nonneg; lia. Qed.

Lemma scale2_pw num den s : scale2 num den s = (num * pw s, den * pw (- s)).
Proof.
  unfold scale2, pw. destruct (Z.leb_spec 0 s).
  - rewrite (Z.max_l s) by lia. rewrite (Z.max_r (- s)) by lia. now rewrite Z.mul_1_r.
  - rewrite (Z.max_r s) by lia. rewrite (Z.max_l (- s)) by lia. now rewrite Z.mul_1_r.
Qed.

Lemma scale10_pt num den s : scale10 num den s = (num * pt s, den * pt (- s)).
Proof.
  unfold scale10, pt. destruct (Z.leb_spec 0 s).
  - rewrite (Z.max_l s) by lia. rewrite (Z.max_r (- s)) by lia. now rewrite Z.mul_1_r.
  - rewrite (Z.max_r s) by lia. rewrite (Z.max_l (- s)) by lia. now rewrite Z.mul_1_r.
Qed.

(** 2^s as a ratio: pw s / pw (-s); the product rule. *)
Lemma pw_add s t : pw (s + t) * pw (- s) * pw (- t) = pw (- (s + t)) * pw s * pw t.
Proof.
  unfold pw. rewrite <- !Z.pow_add_r by lia. f_equal. lia.
Qed.

Lemma pw_succ s : pw (s + 1) * pw (- s) = 2 * pw (- (s + 1)) * pw s.
Proof.
  pose proof (pw_add s 1) as H.
  assert (E1 : pw 1 = 2) by reflexivity. assert (E2 : pw (- (1)) = 1) by reflexivity.
  rewrite E1, E2 in H. lia.
Qed.

Lemma pw_exact s : 0 <= s -> pw s = 2 ^ s /\ pw (- s) = 1.
Proof.
  intro H. unfold pw. rewrite Z.max_l by lia. rewrite Z.max_r by lia. auto.
Qed.

(** Equal ratios round alike. *)
Lemma round_half_even_ext a b c d :
  0 < b -> 0 < d -> a * d = c * b -> round_half_even a b = round_half_even c d.
Proof.
  intros Hb Hd E. unfold round_half_even.
  pose proof (Z.div_mod a b ltac:(lia)) as Ha. pose proof (Z.mod_pos_bound a b Hb) as Hra.
  pose proof (Z.div_mod c d ltac:(lia)) as Hc. pose proof (Z.mod_pos_bound c d Hd) as Hrc.
  generalize dependent (a / b). generalize dependent (a mod b).
  generalize dependent (c / d). generalize dependent (c mod d).
  intros r' Hrc q' Hc r Hra q Ha.
  assert (E1 : b * d * (q - q') = r' * b - r * d) by (subst a c; lia).
  assert (E2 : - (b * d) < r' * b - r * d < b * d) by nia.
  assert (Hq : q = q').
  { destruct (Z.lt_trichotomy q q') as [L|[L|L]]; [|exact L|].
    - assert (b * d * (q - q') <= - (b * d)) by nia. lia.
    - assert (b * d <= b * d * (q - q')) by nia. lia. }
  subst q'.
  assert (Hr : r * d = r' * b) by nia.
  assert (Hcmp : (2 * r ?= b) = (2 * r' ?= d)).
  { destruct (Z.compare_spec (2 * r) b), (Z.compare_spec (2 * r') d); try reflexivity; nia. }
  now rewrite Hcmp.
Qed.

Lemma bracket_ext a b c d l :
  0 < b -> 0 < d -> a * d = c * b -> bracket a b l -> bracket c d l.
Proof.
  unfold bracket. intros Hb Hd E [H1 H2].
  pose proof (pw_pos l). pose proof (pw_pos (- l)). split; nia.
Qed.

Lemma bracket_unique num den l l' :
  0 < num -> 0 < den -> bracket num den l -> bracket num den l' -> l = l'.
Proof.
  assert (W : forall l l', 0 < num -> 0 < den -> bracket num den l -> bracket num den l' -> l < l' -> False).
  { clear l l'. intros l l' Hn Hd [H1 H2] [H3 H4] Hlt.
    pose proof (pw_add (-l') (l' - l)) as P.
    replace (- l' + (l' - l)) with (- l) in P by lia.
    replace (- - l') with l' in P by lia.
    replace (- - l) with l in P by lia.
    replace (- (l' - l)) with (l - l') in P by lia.
    assert (Q : pw (l - l') = 1) by (unfold pw; rewrite Z.max_r by lia; reflexivity).
    assert (R : 2 <= pw (l' - l)).
    { unfold pw. rewrite Z.max_l by lia. change 2 with (2 ^ 1) at 1.
      apply Z.pow_le_mono_r; lia. }
    rewrite Q in P.
    pose proof (pw_pos l). pose proof (pw_pos (- l)). pose proof (pw_pos l'). pose proof (pw_pos (- l')).
    (* P : pw (-l) * pw l' * 1 = pw l * pw (-l') * pw (l' - l) *)
    assert (num * pw (- l) * pw l' < 2 * den * pw l * pw l') by nia.
    assert (den * pw l' * pw l <= num * pw (- l') * pw l) by nia.
    assert (num * (pw l * pw (- l') * pw (l' - l)) < 2 * (num * pw (- l') * pw l)) by nia.
    assert (0 < num * pw (- l') * pw l) by nia.
    nia. }
  intros Hn Hd B B'. destruct (Z.lt_trichotomy l l') as [H|[H|H]]; [|exact H|].
  - exfalso; eauto.
  - exfalso; eauto.
Qed.

Lemma floor_log2_bracket num den :
  0 < num -> 0 < den -> bracket num den (floor_log2 num den).
Proof.
  intros Hn Hd. unfold floor_log2.
  pose proof (Z.log2_spec num Hn) as Ln. pose proof (Z.log2_spec den Hd) as Ld.
  pose proof (Z.log2_nonneg num) as Nn. pose proof (Z.log2_nonneg den) as Nd.
  set (ln := Z.log2 num) in *. set (ld := Z.log2 den) in *.
  rewrite Z.pow_succ_r in Ln, Ld by lia.
  set (l := ln - ld). rewrite scale2_pw.
  replace (- - l) with l by lia.
  (* pw (-l) * 2^ln = pw l * 2^ld *)
  assert (P : pw (- l) * 2 ^ ln = pw l * 2 ^ ld).
  { unfold pw. rewrite <- !Z.pow_add_r by lia. f_equal. lia. }
  pose proof (pw_pos l). pose proof (pw_pos (- l)).
  assert (0 < 2 ^ ln) by (apply Z.pow_pos_nonneg; lia).
  assert (0 < 2 ^ ld) by (apply Z.pow_pos_nonneg; lia).
  destruct (Z.leb_spec (den * pw l) (num * pw (- l))) as [Hle|Hlt]; unfold bracket.
  - split; [exact Hle|].
    assert (num * pw (- l) * 1 < 2 * 2 ^ ln * pw (- l)) by nia.
    nia.
  - pose proof (pw_succ (- l)) as S2.
    replace (- l + 1) with (- (l - 1)) in S2 by lia.
    replace (- - (l - 1)) with (l - 1) in S2 by lia.
    replace (- - l) with l in S2 by lia.
    pose proof (pw_pos (l - 1)). pose proof (pw_pos (- (l - 1))).
    assert (A1 : den * pw l < 2 * num * pw (- l)).
    { assert (den * pw l < 2 * 2 ^ ld * pw l) by nia.
      assert (2 * (pw (- l) * 2 ^ ln) <= 2 * pw (- l) * num) by nia.
      lia. }
    split.
    + apply (Z.mul_le_mono_pos_r _ _ (pw l)); [lia|].
      replace (num * pw (- (l - 1)) * pw l) with (num * (pw (- (l - 1)) * pw l)) by ring.
      rewrite S2. nia.
    + apply (Z.mul_lt_mono_pos_r (pw l)); [lia|].
      replace (num * pw (- (l - 1)) * pw l) with (num * (pw (- (l - 1)) * pw l)) by ring.
      rewrite S2. nia.
Qed.

Lemma floor_log2_unique num den l :
  0 < num -> 0 < den -> bracket num den l -> floor_log2 num den = l.
Proof.
  intros Hn Hd B. apply (bracket_unique num den); auto using floor_log2_bracket.
Qed.

Lemma floor_log2_ext a b c d :
  0 < a -> 0 < b -> 0 < c -> 0 < d -> a * d = c * b ->
  floor_log2 a b = floor_log2 c d.
Proof.
  intros Ha Hb Hc Hd E. apply floor_log2_unique; auto.
  apply (bracket_ext c d a b); auto using floor_log2_bracket.
Qed.

Lemma round_ratio_ext a b c d :
  0 < a -> 0 < b -> 0 < c -> 0 < d -> a * d = c * b ->
  round_ratio a b = round_ratio c d.
Proof.
  intros Ha Hb Hc Hd E. unfold round_ratio.
  rewrite (floor_log2_ext a b c d) by assumption.
  set (e := Z.max (floor_log2 c d - 52) (-1074)).
  rewrite !scale2_pw. replace (- - e) with e by lia.
  pose proof (pw_pos e). pose proof (pw_pos (- e)).
  rewrite (round_half_even_ext (a * pw (- e)) (b * pw e) (c * pw (- e)) (d * pw e));
    [reflexivity|nia|nia|].
  set (p := pw (- e)). set (n := pw e).
  transitivity (a * d * (p * n)); [ring|]. rewrite E. ring.
Qed.

Lemma digits2_pos_size (m : positive) : digits2_pos m = Pos.size m.
Proof. induction m; cbn; congruence. Qed.

Lemma digits2_log2 (m : positive) : Z.pos (digits2_pos m) = Z.log2 (Z.pos m) + 1.
Proof.
  rewrite digits2_pos_size. destruct m; cbn; try reflexivity; lia.
Qed.

Lemma round_half_even_whole (m : Z) : round_half_even m 1 = m.
Proof. unfold round_half_even. rewrite Z.mod_1_r, Z.div_1_r. reflexivity. Qed.

(** What [valid_binary] says of a finite binary64 number. *)
Lemma valid_finite (s : bool) (m : positive) (e : Z) :
  valid_binary (S754_finite s m e) = true ->
  e = Z.max (Z.log2 (Z.pos m) + e - 52) (-1074) /\ e <= 971.
Proof.
  unfold valid_binary, bounded, canonical_mantissa, fexp, emin, prec, emax.
  rewrite digits2_log2. intros [H1 H2]%andb_prop.
  apply Z.eqb_eq in H1. apply Z.leb_le in H2. lia.
Qed.

Lemma round_ratio_exact (s : bool) (m : positive) (e : Z) :
  valid_binary (S754_finite s m e) = true ->
  round_ratio (Z.pos m * pw e) (pw (- e)) = S754_finite false m e.
Proof.
  intros V. apply valid_finite in V as [Ve Vmax].
  pose proof (pw_pos e). pose proof (pw_pos (- e)).
  pose proof (Z.log2_spec (Z.pos m) ltac:(lia)) as Lm.
  pose proof (Z.log2_nonneg (Z.pos m)) as Nm.
  set (lm := Z.log2 (Z.pos m)) in *.
  rewrite Z.pow_succ_r in Lm by lia.
  assert (FL : floor_log2 (Z.pos m * pw e) (pw (- e)) = lm + e).
  { apply floor_log2_unique; [nia|lia|]. unfold bracket.
    pose proof (pw_add e lm) as P.
    destruct (pw_exact lm Nm) as [E1 E2]. rewrite E1, E2 in P.
    pose proof (pw_pos (e + lm)). pose proof (pw_pos (- (e + lm))).
    replace (lm + e) with (e + lm) by lia.
    assert (0 < pw (- (e + lm)) * pw e) by nia.
    split.
    - replace (pw (- e) * pw (e + lm)) with (pw (e + lm) * pw (- e) * 1) by ring.
      rewrite P. nia.
    - replace (pw (- e) * pw (e + lm)) with (pw (e + lm) * pw (- e) * 1) by ring.
      rewrite P. nia. }
  unfold round_ratio. rewrite FL, <- Ve. rewrite scale2_pw.
  replace (- - e) with e by lia.
  rewrite (round_half_even_ext _ _ (Z.pos m) 1); [|nia|lia|ring].
  rewrite round_half_even_whole.
  assert (lm <= 52) by lia.
  assert (Z.pos m < 2 ^ 53).
  { assert (2 ^ lm <= 2 ^ 52) by (apply Z.pow_le_mono_r; lia).
    change (2 ^ 53) with (2 * 2 ^ 52). lia. }
  destruct (Z.eqb_spec (Z.pos m) (2 ^ 53)); [lia|].
  destruct (Z.ltb_spec 971 e); [lia|reflexivity].
Qed.

(** Reading [c * 10^k] *)
Lemma round_decimal_pt c k : round_decimal c k = round_ratio (c * pt k) (pt (- k)).
Proof. unfold round_decimal. rewrite scale10_pt. now rewrite Z.mul_1_l. Qed.

(** A decimal that is the float exactly reads back as the float. *)
Lemma rounds_to_exact (s : bool) (m : positive) (e : Z) (c k : Z) :
  valid_binary (S754_finite s m e) = true ->
  0 < c ->
  c * pt k * pw (- e) = Z.pos m * pw e * pt (- k) ->
  rounds_to m e c k = true.
Proof.
  intros V Hc E. unfold rounds_to.
  destruct (Z.ltb_spec 0 c); [|lia]. cbn [andb].
  rewrite round_decimal_pt.
  pose proof (pw_pos e). pose proof (pw_pos (- e)). pose proof (pt_pos k). pose proof (pt_pos (- k)).
  rewrite (round_ratio_ext _ _ (Z.pos m * pw e) (pw (- e))); [|nia|lia|nia|lia|exact E].
  rewrite (round_ratio_exact s m e V). now rewrite Pos.eqb_refl, Z.eqb_refl.
Qed.

Lemma pt_exact s : 0 <= s -> pt s = 10 ^ s /\ pt (- s) = 1.
Proof.
  intro H. unfold pt. rewrite Z.max_l by lia. rewrite Z.max_r by lia. auto.
Qed.

(** The search ends on a decimal that reads back as the float. *)
Lemma shortest_rounds_to (s : bool) (m : positive) (e : Z) (fuel : nat) :
  valid_binary (S754_finite s m e) = true ->
  rounds_to m e (fst (shortest m e fuel)) (snd (shortest m e fuel)) = true.
Proof.
  intros V.
  assert (X : forall k sn sd,
     scale10 (Z.pos m * pw e) (pw (- e)) (- k) = (sn, sd) ->
     sn mod sd = 0 -> rounds_to m e (sn / sd) k = true).
  { intros k sn sd Hs Hr. rewrite scale10_pt in Hs. apply pair_equal_spec in Hs as [Hsn Hsd].
    replace (- - k) with k in * by lia.
    pose proof (pw_pos e). pose proof (pw_pos (- e)). pose proof (pt_pos k). pose proof (pt_pos (- k)).
    assert (0 < sd) by (subst sd; nia). assert (0 < sn) by (subst sn; nia).
    pose proof (Z.div_mod sn sd ltac:(lia)) as D. rewrite Hr, Z.add_0_r in D.
    apply (rounds_to_exact s); [exact V|nia|].
    transitivity (sd * (sn / sd)); [subst sd; ring|]. rewrite <- D. now subst sn. }
  induction fuel as [|fuel IH].
  - cbn [shortest]. rewrite scale2_pw, Z.mul_1_l.
    destruct (scale10 _ _ _) as [sn sd] eqn:Hs. cbn [fst snd].
    apply X; [exact Hs|].
    rewrite scale10_pt in Hs. apply pair_equal_spec in Hs as [<- <-].
    change (Z.of_nat 0 - 1074) with (-1074). change (- -1074) with 1074.
    apply valid_finite in V as [Ve _].
    destruct (pt_exact 1074 ltac:(lia)) as [E1 E2]. rewrite E1.
    change (pt (- (1074))) with 1. rewrite Z.mul_1_r.
    unfold pw at 2. 
    assert (Hd : 10 ^ 1074 = 2 ^ Z.max (- e) 0 * (2 ^ (1074 - Z.max (- e) 0) * 5 ^ 1074)).
    { rewrite Z.mul_assoc, <- Z.pow_add_r by lia.
      replace (Z.max (- e) 0 + (1074 - Z.max (- e) 0)) with 1074 by lia.
      now rewrite <- Z.pow_mul_l. }
    rewrite Hd.
    rewrite Z.mul_assoc, (Z.mul_comm _ (2 ^ Z.max (- e) 0)), <- Z.mul_assoc.
    rewrite Z.mul_comm. apply Z.mod_mul. apply Z.pow_nonzero; lia.
  - cbn [shortest]. rewrite scale2_pw, Z.mul_1_l.
    destruct (scale10 _ _ _) as [sn sd] eqn:Hs.
    destruct (Z.eqb_spec (sn mod sd) 0) as [Hr|Hr].
    + cbn [fst snd]. now apply X.
    + set (k := Z.of_nat (S fuel) - 1074) in *.
      destruct (rounds_to m e (sn / sd) k) eqn:Rlo, (rounds_to m e (sn / sd + 1) k) eqn:Rhi.
      * destruct (2 * (sn mod sd) ?= sd); [destruct (Z.even (sn / sd))| |]; assumption.
      * assumption.
      * assumption.
      * exact IH.
Qed.

(** ** Reading what the encoder wrote *)

(** *** Digit strings *)

Lemma length_app (a b : string) :
  String.length (a ++ b) = (String.length a + String.length b)%nat.
Proof. induction a as [|c a IH]; cbn; [reflexivity|now rewrite IH]. Qed.

Lemma append_assoc (a b c : string) : (a ++ b) ++ c = a ++ b ++ c.
Proof. induction a as [|x a IH]; cbn; [reflexivity|now rewrite IH]. Qed.

Lemma starts_with_digit_ends (rest : string) :
  ends_number rest = true -> starts_with_digit rest = false.
Proof.
  destruct rest as [|c rest]; cbn; [reflexivity|].
  destruct (is_digit c); [discriminate|reflexivity].
Qed.

Lemma scan_digits_app (ds rest : string) (acc : N) (n : nat) :
  all_chars is_digit ds = true ->
  starts_with_digit rest = false ->
  scan_digits (ds ++ rest) acc n = (digits_acc ds acc, (n + String.length ds)%nat, rest).
Proof.
  intros Hd Hr. revert acc n. induction ds as [|c ds IH]; intros acc n.
  - cbn. rewrite Nat.add_0_r. destruct rest as [|c rest]; [reflexivity|].
    cbn in *. now rewrite Hr.
  - cbn in Hd. apply andb_prop in Hd as [Hc Hd].
    cbn [append scan_digits digits_acc String.length]. rewrite Hc, (IH Hd).
    f_equal. f_equal. lia.
Qed.

Lemma digits_acc_app (a b : string) (acc : N) :
  digits_acc (a ++ b) acc = digits_acc b (digits_acc a acc).
Proof. revert acc. induction a as [|c a IH]; intros acc; cbn; [reflexivity|apply IH]. Qed.

Lemma digits_acc_zeros (k : nat) (acc : N) :
  digits_acc (zeros k) acc = (acc * 10 ^ N.of_nat k)%N.
Proof.
  revert acc. induction k as [|k IH]; intros acc.
  - cbn. lia.
  - cbn [zeros digits_acc]. rewrite IH. change (digit_value "0") with 0%N.
    rewrite Nat2N.inj_succ, N.pow_succ_r'. lia.
Qed.

Lemma digits_acc_shift (s : string) (acc : N) :
  digits_acc s acc = (acc * 10 ^ N.of_nat (String.length s) + digits_acc s 0)%N.
Proof.
  revert acc. induction s as [|c s IH]; intros acc.
  - cbn. lia.
  - cbn [digits_acc String.length]. rewrite (IH (10 * acc + digit_value c)%N).
    rewrite (IH (10 * 0 + digit_value c)%N).
    rewrite Nat2N.inj_succ, N.pow_succ_r'. lia.
Qed.

Lemma digits_acc_uint (d : Decimal.uint) (acc : N) :
  digits_acc (NilEmpty.string_of_uint d) acc = uint_acc d acc.
Proof.
  revert acc. induction d; intros acc; cbn [NilEmpty.string_of_uint digits_acc uint_acc];
    rewrite ?IHd; try reflexivity; f_equal; cbn; lia.
Qed.

Lemma uint_acc_pos (d : Decimal.uint) (p : positive) :
  uint_acc d (Npos p) = Npos (Pos.of_uint_acc d p).
Proof.
  revert p. induction d; intros p; cbn [uint_acc Pos.of_uint_acc]; [reflexivity|..];
    match goal with |- uint_acc _ ?a = _ => 
      let H := fresh in
      evar (q : positive); assert (H : a = Npos q) by (subst q; cbn; reflexivity);
      rewrite H; subst q; rewrite IHd; f_equal; f_equal; lia end.
Qed.

Lemma uint_acc_zero (d : Decimal.uint) : uint_acc d 0 = Pos.of_uint d.
Proof.
  induction d; cbn [uint_acc Pos.of_uint]; try reflexivity;
    try (change (10 * 0)%N with 0%N; cbn [N.add]; apply uint_acc_pos).
  change (10 * 0)%N with 0%N. exact IHd.
Qed.

Lemma decimal_value (n : N) : digits_acc (decimal n) 0 = n.
Proof.
  unfold decimal, NilZero.string_of_uint.
  destruct (N.to_uint n) as [|d|d|d|d|d|d|d|d|d|d] eqn:E;
    try (rewrite <- E at 1);
    try (rewrite digits_acc_uint, uint_acc_zero;
         rewrite E; change Pos.of_uint with N.of_uint; rewrite <- E;
         apply DecimalN.Unsigned.of_to).
  (* Nil *)
  cbn. rewrite <- (DecimalN.Unsigned.of_to n), E. reflexivity.
Qed.

Lemma nzhead_not_D0 (d d' : Decimal.uint) : Decimal.nzhead d <> Decimal.D0 d'.
Proof. induction d; cbn; try discriminate. exact IHd. Qed.

(** A positive number has no leading zero. *)
Lemma decimal_pos_head (p : positive) :
  exists c rest, decimal (Npos p) = String c rest /\
                 is_digit c = true /\ Ascii.eqb c "0" = false.
Proof.
  unfold decimal, NilZero.string_of_uint. cbn [N.to_uint].
  pose proof (DecimalPos.Unsigned.to_uint_nonnil p) as Hnil.
  pose proof (DecimalPos.Unsigned.to_uint_nonzero p) as Hz.
  assert (Hn : Pos.to_uint p = Decimal.unorm (Pos.to_uint p)).
  { rewrite <- (DecimalPos.Unsigned.to_of (Pos.to_uint p)).
    rewrite DecimalPos.Unsigned.of_to. reflexivity. }
  assert (H0 : forall d', Pos.to_uint p <> Decimal.D0 d').
  { intros d' E. rewrite Hn in E. unfold Decimal.unorm in E.
    destruct (Decimal.nzhead (Pos.to_uint p)) eqn:F; try discriminate.
    - injection E as <-. apply Hz. rewrite Hn. unfold Decimal.unorm. now rewrite F.
    - now apply nzhead_not_D0 in F. }
  destruct (Pos.to_uint p) as [|d|d|d|d|d|d|d|d|d|d];
    [congruence|exfalso; eapply H0; reflexivity|..];
    do 2 eexists; repeat split.
Qed.

Lemma decimal_pos_length (p : positive) : (0 < String.length (decimal (Npos p)))%nat.
Proof. destruct (decimal_pos_head p) as [c [rest [-> _]]]. cbn. lia. Qed.

(** *** Pieces of a number *)

Lemma scan_int_part_zero (rest : string) :
  scan_int_part (String "0" rest) = Some (0%N, rest).
Proof. reflexivity. Qed.

Lemma scan_int_part_digits (c : ascii) (ds rest : string) :
  is_digit c = true -> Ascii.eqb c "0" = false ->
  all_chars is_digit ds = true -> starts_with_digit rest = false ->
  scan_int_part (String c ds ++ rest) = Some (digits_acc (String c ds) 0, rest).
Proof.
  intros Hc H0 Hd Hr. unfold scan_int_part. cbn [append]. rewrite Hc, H0. cbn [negb].
  change (String c (ds ++ rest)) with (String c ds ++ rest).
  rewrite scan_digits_app; [reflexivity| |exact Hr]. cbn. now rewrite Hc, Hd.
Qed.

Lemma scan_frac_part_none (ip : N) (rest : string) :
  match rest with String c _ => Ascii.eqb c "." = false | EmptyString => True end ->
  scan_frac_part ip rest = (ip, 0%nat, rest).
Proof. destruct rest as [|c rest]; cbn; [reflexivity|]. now intros ->. Qed.

Lemma scan_frac_part_digits (ip : N) (fs rest : string) :
  all_chars is_digit fs = true -> fs <> "" -> starts_with_digit rest = false ->
  scan_frac_part ip (String "." (fs ++ rest)) =
    (digits_acc fs ip, String.length fs, rest).
Proof.
  intros Hd Hne Hr. unfold scan_frac_part.
  assert (S : starts_with_digit (fs ++ rest) = true).
  { destruct fs as [|c fs]; [congruence|]. cbn in *. now apply andb_prop in Hd as [-> _]. }
  rewrite S. cbn [Ascii.eqb Bool.eqb andb]. change (Ascii.eqb "." ".") with true. cbn [andb].
  now rewrite scan_digits_app.
Qed.

Lemma scan_exp_part_none (rest : string) :
  ends_number rest = true -> scan_exp_part rest = (0, false, rest).
Proof.
  destruct rest as [|c rest]; cbn; [reflexivity|].
  destruct (is_digit c), (Ascii.eqb c "."), (Ascii.eqb c "e"), (Ascii.eqb c "E");
    cbn; try discriminate; reflexivity.
Qed.

Lemma scan_exp_part_digits (neg : bool) (es rest : string) :
  all_chars is_digit es = true -> es <> "" -> starts_with_digit rest = false ->
  scan_exp_part (String "e" (String (if neg then "-" else "+")%char (es ++ rest))) =
    ((if neg then - Z.of_N (digits_acc es 0) else Z.of_N (digits_acc es 0)), true, rest).
Proof.
  intros Hd Hne Hr. unfold scan_exp_part.
  assert (S : starts_with_digit (es ++ rest) = true).
  { destruct es as [|c es]; [congruence|]. cbn in *. now apply andb_prop in Hd as [-> _]. }
  change (Ascii.eqb "e" "e") with true. cbn [orb].
  destruct neg.
  - change (Ascii.eqb "-" "-") with true. cbv iota. rewrite S.
    now rewrite scan_digits_app.
  - change (Ascii.eqb "+" "-") with false. change (Ascii.eqb "+" "+") with true.
    cbv iota. rewrite S. now rewrite scan_digits_app.
Qed.

(** *** The four layouts of [repr] *)

Lemma all_digits_head (c : ascii) (s : string) :
  all_chars is_digit (String c s) = true -> is_digit c = true /\ all_chars is_digit s = true.
Proof. cbn. intros H. now apply andb_prop in H. Qed.

Lemma dot_not_digit (s : string) : starts_with_digit (String "." s) = false.
Proof. reflexivity. Qed.

Lemma e_not_digit (s : string) : starts_with_digit (String "e" s) = false.
Proof. reflexivity. Qed.

Lemma layout_small (neg : bool) (k0 : nat) (ds rest : string) :
  all_chars is_digit ds = true -> ds <> "" -> ends_number rest = true ->
  scan_unsigned neg (("0." ++ zeros k0 ++ ds) ++ rest) =
    Some (JFloat (float_of_decimal neg (digits_acc ds 0)
                    (0 - Z.of_nat (k0 + String.length ds))), rest).
Proof.
  intros Hd Hne Hr. pose proof (starts_with_digit_ends rest Hr) as Hs.
  unfold scan_unsigned. cbn [append]. rewrite scan_int_part_zero.
  rewrite scan_frac_part_digits; [| |destruct k0; [exact Hne|discriminate]|exact Hs].
  2:{ rewrite all_chars_app, zeros_digits. exact Hd. }
  rewrite scan_exp_part_none by exact Hr.
  rewrite length_app.
  assert (L : String.length (zeros k0) = k0) by (induction k0; cbn; congruence).
  rewrite L. destruct ds as [|c ds]; [congruence|].
  replace (Nat.eqb (k0 + String.length (String c ds)) 0) with false
    by (symmetry; apply Nat.eqb_neq; cbn; lia).
  cbn [negb orb]. rewrite digits_acc_app, digits_acc_zeros. reflexivity.
Qed.

Lemma layout_whole (neg : bool) (c0 : ascii) (ds0 : string) (j : nat) (rest : string) :
  is_digit c0 = true -> Ascii.eqb c0 "0" = false -> all_chars is_digit ds0 = true ->
  ends_number rest = true ->
  scan_unsigned neg ((String c0 ds0 ++ zeros j ++ ".0") ++ rest) =
    Some (JFloat (float_of_decimal neg
                    (10 * (digits_acc (String c0 ds0) 0 * 10 ^ N.of_nat j))%N (0 - 1)), rest).
Proof.
  intros Hc H0 Hd Hr. pose proof (starts_with_digit_ends rest Hr) as Hs.
  unfold scan_unsigned.
  replace ((String c0 ds0 ++ zeros j ++ ".0") ++ rest)
    with (String c0 (ds0 ++ zeros j) ++ String "." ("0" ++ rest)).
  2:{ cbn [append]. f_equal. now rewrite !append_assoc. }
  rewrite scan_int_part_digits; [|exact Hc|exact H0| |apply dot_not_digit].
  2:{ now rewrite all_chars_app, zeros_digits, Hd. }
  rewrite scan_frac_part_digits; [|reflexivity|discriminate|exact Hs].
  rewrite scan_exp_part_none by exact Hr.
  cbn [String.length Nat.eqb negb orb].
  replace (digits_acc (String c0 (ds0 ++ zeros j)) 0)
    with (digits_acc (String c0 ds0) 0 * 10 ^ N.of_nat j)%N.
  2:{ change (String c0 (ds0 ++ zeros j)) with (String c0 ds0 ++ zeros j).
      now rewrite digits_acc_app, digits_acc_zeros. }
  cbn [digits_acc]. change (digit_value "0") with 0%N. rewrite N.add_0_r. reflexivity.
Qed.

Lemma layout_point (neg : bool) (c0 : ascii) (a0 b rest : string) :
  is_digit c0 = true -> Ascii.eqb c0 "0" = false -> all_chars is_digit a0 = true ->
  all_chars is_digit b = true -> b <> "" -> ends_number rest = true ->
  scan_unsigned neg ((String c0 a0 ++ "." ++ b) ++ rest) =
    Some (JFloat (float_of_decimal neg (digits_acc (String c0 a0 ++ b) 0)
                    (0 - Z.of_nat (String.length b))), rest).
Proof.
  intros Hc H0 Ha Hb Hne Hr. pose proof (starts_with_digit_ends rest Hr) as Hs.
  unfold scan_unsigned.
  replace ((String c0 a0 ++ "." ++ b) ++ rest)
    with (String c0 a0 ++ String "." (b ++ rest)).
  2:{ cbn [append]. f_equal. now rewrite !append_assoc. }
  rewrite scan_int_part_digits; [|exact Hc|exact H0|exact Ha|apply dot_not_digit].
  rewrite scan_frac_part_digits; [|exact Hb|exact Hne|exact Hs].
  rewrite scan_exp_part_none by exact Hr.
  destruct b as [|cb b]; [congruence|].
  cbn [String.length Nat.eqb negb orb].
  now rewrite (digits_acc_app (String c0 a0)).
Qed.

Lemma layout_exp (neg eneg : bool) (c0 : ascii) (ds0 es rest : string) :
  is_digit c0 = true -> Ascii.eqb c0 "0" = false -> all_chars is_digit ds0 = true ->
  all_chars is_digit es = true -> es <> "" -> ends_number rest = true ->
  scan_unsigned neg
    ((String c0 "" ++ (match ds0 with EmptyString => "" | _ => "." ++ ds0 end) ++
      "e" ++ (if eneg then "-" else "+") ++ es) ++ rest) =
    Some (JFloat (float_of_decimal neg (digits_acc (String c0 ds0) 0)
                    ((if eneg then - Z.of_N (digits_acc es 0) else Z.of_N (digits_acc es 0))
                     - Z.of_nat (String.length ds0))), rest).
Proof.
  intros Hc H0 Hd He Hne Hr. pose proof (starts_with_digit_ends rest Hr) as Hs.
  unfold scan_unsigned.
  assert (T : (("e" ++ (if eneg then "-" else "+") ++ es) ++ rest) =
              String "e" (String (if eneg then "-" else "+")%char (es ++ rest))).
  { destruct eneg; reflexivity. }
  destruct ds0 as [|d0 ds0].
  - replace ((String c0 "" ++ "" ++ "e" ++ (if eneg then "-" else "+") ++ es) ++ rest)
      with (String c0 "" ++ String "e" (String (if eneg then "-" else "+")%char (es ++ rest))).
    2:{ cbn [append]. f_equal. destruct eneg; reflexivity. }
    rewrite scan_int_part_digits; [|exact Hc|exact H0|reflexivity|apply e_not_digit].
    rewrite scan_frac_part_none by reflexivity.
    rewrite scan_exp_part_digits; [|exact He|exact Hne|exact Hs].
    cbn [String.length Nat.eqb negb orb]. reflexivity.
  - replace ((String c0 "" ++ ("." ++ String d0 ds0) ++ "e" ++ (if eneg then "-" else "+") ++ es) ++ rest)
      with (String c0 "" ++ String "." (String d0 ds0 ++
              String "e" (String (if eneg then "-" else "+")%char (es ++ rest)))).
    2:{ cbn [append]. do 3 f_equal. rewrite append_assoc. f_equal. destruct eneg; reflexivity. }
    rewrite scan_int_part_digits; [|exact Hc|exact H0|reflexivity|apply dot_not_digit].
    rewrite scan_frac_part_digits; [|exact Hd|discriminate|apply e_not_digit].
    rewrite scan_exp_part_digits; [|exact He|exact Hne|exact Hs].
    cbn [String.length Nat.eqb negb orb]. reflexivity.
Qed.

Lemma substring_all (s : string) : substring 0 (String.length s) s = s.
Proof. induction s as [|c s IH]; cbn; [reflexivity|now rewrite IH]. Qed.

Lemma substring_skip (n m : nat) (a b : string) :
  String.length a = n -> substring n m (a ++ b) = substring 0 m b.
Proof.
  revert n. induction a as [|c a IH]; intros n H; cbn in H; subst n; [reflexivity|].
  cbn. now apply IH.
Qed.

Lemma substring_split (n : nat) (s : string) :
  (n <= String.length s)%nat ->
  exists a b, s = a ++ b /\ String.length a = n /\
              substring 0 n s = a /\ substring n (String.length s - n) s = b.
Proof.
  revert s. induction n as [|n IH]; intros s H.
  - exists "", s. repeat split.
    + now destruct s.
    + rewrite Nat.sub_0_r. apply substring_all.
  - destruct s as [|c s]; [cbn in H; lia|]. cbn in H.
    destruct (IH s ltac:(lia)) as [a [b [E [L [S1 S2]]]]].
    exists (String c a), b. repeat split.
    + cbn. now rewrite <- E.
    + cbn. now rewrite L.
    + cbn. now rewrite S1.
    + cbn [String.length substring]. exact S2.
Qed.

Lemma zeros_length (k : nat) : String.length (zeros k) = k.
Proof. induction k; cbn; congruence. Qed.

Lemma zfill_value (w : nat) (n : N) : digits_acc (zfill w (decimal n)) 0 = n.
Proof.
  unfold zfill. rewrite digits_acc_app, digits_acc_zeros, N.mul_0_l. apply decimal_value.
Qed.

Lemma zfill_nonempty (w : nat) (n : N) : zfill w (decimal n) <> "".
Proof.
  unfold zfill. destruct (decimal_nonempty n) as [c [rest ->]].
  destruct (zeros _); discriminate.
Qed.

(** Reading the text of [repr] for the digits of [p] at scale [10^k]:
    the float is the one the decimal [p * 10^k] reads as. *)
Lemma scan_repr_digits (neg : bool) (p : positive) (k : Z) (rest : string) (x : float) :
  ends_number rest = true ->
  float_of_decimal neg (Npos p) k = x ->
  (0 <= k -> float_of_decimal neg (10 * (Npos p * 10 ^ N.of_nat (Z.to_nat k)))%N (0 - 1) = x) ->
  scan_unsigned neg
    (float_repr_digits (decimal (Npos p))
       (Z.of_nat (String.length (decimal (Npos p))) + k) ++ rest) = Some (JFloat x, rest).
Proof.
  intros Hr F1 F2.
  pose proof (decimal_digits (Npos p)) as Hd.
  pose proof (decimal_value (Npos p)) as Hv.
  destruct (decimal_pos_head p) as [c0 [ds0 [E [Hc H0]]]].
  set (ds := decimal (Npos p)) in *.
  set (nd := Z.of_nat (String.length ds)).
  assert (Hnd : 1 <= nd) by (unfold nd; rewrite E; cbn [String.length]; lia).
  unfold float_repr_digits. fold nd.
  destruct ((-4 <? nd + k) && (nd + k <=? 16)) eqn:Fixed.
  - destruct (Z.leb_spec (nd + k) 0) as [Hsmall|Hbig].
    + rewrite layout_small; [|exact Hd|rewrite E; discriminate|exact Hr].
      rewrite Hv. fold nd.
      replace (0 - Z.of_nat (Z.to_nat (- (nd + k)) + String.length ds)) with k
        by (unfold nd; lia).
      now rewrite F1.
    + destruct (Z.leb_spec nd (nd + k)) as [Hwhole|Hpoint].
      * rewrite E in *. apply all_digits_head in Hd as [_ Hd0].
        rewrite layout_whole; [|exact Hc|exact H0|exact Hd0|exact Hr].
        rewrite Hv. replace (nd + k - nd) with k by lia.
        rewrite F2 by lia. reflexivity.
      * destruct (substring_split (Z.to_nat (nd + k)) ds ltac:(unfold nd in *; lia))
          as [a [b [Eab [La [S1 S2]]]]].
        replace (Z.to_nat (nd - (nd + k))) with (String.length ds - Z.to_nat (nd + k))%nat
          by (unfold nd; lia).
        rewrite S1, S2.
        assert (Lb : String.length b = (String.length ds - Z.to_nat (nd + k))%nat).
        { rewrite Eab at 1. rewrite length_app. lia. }
        rewrite Eab in Hd. rewrite all_chars_app in Hd. apply andb_prop in Hd as [Hda Hdb].
        destruct a as [|ca a0]; [cbn in La; lia|].
        assert (ca = c0) by (rewrite E in Eab; cbn in Eab; congruence). subst ca.
        apply all_digits_head in Hda as [_ Hda0].
        rewrite layout_point; [|exact Hc|exact H0|exact Hda0|exact Hdb| |exact Hr].
        2:{ intros ->. cbn in Lb. unfold nd in *. lia. }
        rewrite <- Eab, Hv.
        replace (0 - Z.of_nat (String.length b)) with k by (unfold nd in *; lia).
        now rewrite F1.
  - rewrite E in Hd. apply all_digits_head in Hd as [_ Hd0].
    assert (S1 : substring 0 1 ds = String c0 "") by (rewrite E; now destruct ds0).
    assert (S2 : (if nd =? 1 then "" else "." ++ substring 1 (Z.to_nat (nd - 1)) ds) =
                 match ds0 with EmptyString => "" | _ => "." ++ ds0 end).
    { unfold nd. rewrite E. cbn [String.length substring].
      destruct ds0 as [|d0 ds0]; [reflexivity|].
      replace (Z.of_nat (S (String.length (String d0 ds0))) =? 1) with false
        by (symmetry; apply Z.eqb_neq; cbn [String.length]; lia).
      replace (Z.to_nat (Z.of_nat (S (String.length (String d0 ds0))) - 1))
        with (String.length (String d0 ds0)) by lia.
      now rewrite substring_all. }
    rewrite S1, S2. unfold exponent_text.
    set (eneg := nd + k - 1 <? 0).
    replace (if eneg then "-" else "+") with ((if eneg then "-" else "+") : string)
      by reflexivity.
    rewrite layout_exp; [|exact Hc|exact H0|exact Hd0| | |exact Hr].
    2:{ apply zfill_digits, decimal_digits. }
    2:{ apply zfill_nonempty. }
    rewrite zfill_value. rewrite <- E. fold ds. rewrite Hv.
    replace ((if eneg then - Z.of_N (Z.abs_N (nd + k - 1))
              else Z.of_N (Z.abs_N (nd + k - 1))) - Z.of_nat (String.length ds0)) with k.
    2:{ rewrite N2Z.inj_abs_N. unfold eneg.
        assert (nd = 1 + Z.of_nat (String.length ds0))
          by (unfold nd; rewrite E; cbn [String.length]; lia).
        destruct (Z.ltb_spec (nd + k - 1) 0); lia. }
    now rewrite F1.
Qed.

(** *** From the text back to the float *)

Lemma float_of_decimal_rounds (x : float) (s : bool) (m : positive) (e c k : Z) :
  Prim2SF x = S754_finite s m e ->
  rounds_to m e c k = true ->
  float_of_decimal s (Z.to_N c) k = x.
Proof.
  intros Hx. unfold rounds_to. intros [Hc Hr]%andb_prop.
  apply Z.ltb_lt in Hc. destruct c as [|p|p]; try lia.
  cbn [Z.to_N float_of_decimal].
  destruct (round_decimal (Z.pos p) k) as [| | |s' m' e']; try discriminate.
  destruct s'; [discriminate|].
  apply andb_prop in Hr as [Hm He]. apply Pos.eqb_eq in Hm. apply Z.eqb_eq in He. subst m' e'.
  cbn [with_sign]. rewrite <- Hx. apply SF2Prim_Prim2SF.
Qed.

Lemma float_of_decimal_rescale (s : bool) (p : positive) (k : Z) :
  0 <= k ->
  float_of_decimal s (10 * (Npos p * 10 ^ N.of_nat (Z.to_nat k)))%N (0 - 1) =
  float_of_decimal s (Npos p) k.
Proof.
  intros Hk.
  assert (P : 0 < 10 ^ k) by (apply Z.pow_pos_nonneg; lia).
  assert (E : Z.of_N (10 * (Npos p * 10 ^ N.of_nat (Z.to_nat k)))%N = 10 * (Z.pos p * 10 ^ k)).
  { rewrite !N2Z.inj_mul, N2Z.inj_pow, nat_N_Z, Z2Nat.id by lia. reflexivity. }
  destruct (10 * (Npos p * 10 ^ N.of_nat (Z.to_nat k)))%N as [|q];
    [change (Z.of_N 0) with 0 in E; nia|].
  cbn [Z.of_N] in E. cbn [float_of_decimal]. do 2 f_equal.
  rewrite !round_decimal_pt.
  destruct (pt_exact k Hk) as [E1 E2]. rewrite E1, E2.
  change (pt (0 - 1)) with 1. change (pt (- (0 - 1))) with 10.
  apply round_ratio_ext; lia.
Qed.

Lemma scan_number_unsigned (s : string) (r : jvalue * string) :
  scan_unsigned false s = Some r -> scan_number s = Some r.
Proof.
  destruct s as [|c s]; [discriminate|]. unfold scan_number.
  destruct (Ascii.eqb_spec c "-") as [->|]; [discriminate|auto].
Qed.

(** [repr] of a finite float reads back as the float. *)
Lemma scan_number_repr (x : float) (rest : string) :
  is_finite x = true -> ends_number rest = true ->
  scan_number (float_repr x ++ rest) = Some (JFloat x, rest).
Proof.
  intros Hf Hr. unfold is_finite in Hf. unfold float_repr.
  pose proof (Prim2SF_valid x) as V.
  destruct (Prim2SF x) as [s| | |s m e] eqn:Hx; try discriminate.
  - (* zero *)
    assert (Z0 : SF2Prim (S754_zero s) = x) by (rewrite <- Hx; apply SF2Prim_Prim2SF).
    pose proof (starts_with_digit_ends rest Hr) as Hs.
    assert (U : scan_unsigned s ("0.0" ++ rest) = Some (JFloat x, rest)).
    { unfold scan_unsigned. cbn [append]. rewrite scan_int_part_zero.
      change (String "." (String "0" rest)) with (String "." ("0" ++ rest)).
      rewrite scan_frac_part_digits; [|reflexivity|discriminate|exact Hs].
      rewrite scan_exp_part_none by exact Hr.
      cbn [String.length Nat.eqb negb orb].
      change (digits_acc "0" 0) with 0%N. cbn [float_of_decimal]. now rewrite Z0. }
    destruct s; cbn [minus append]; [exact U|].
    now apply scan_number_unsigned.
  - (* finite *)
    pose proof (shortest_rounds_to s m e
                  (Z.to_nat (decimal_exponent_bound m e + 1074)) V) as R.
    unfold shortest_decimal.
    destruct (shortest m e _) as [c k]. cbn [fst snd] in R.
    pose proof (float_of_decimal_rounds x s m e c k Hx R) as F1.
    assert (Hc : 0 < c) by (unfold rounds_to in R; apply andb_prop in R as [R _]; now apply Z.ltb_lt).
    destruct c as [|p|p]; try lia. cbn [Z.to_N] in *.
    assert (U : scan_unsigned s
       (float_repr_digits (decimal (N.pos p))
          (Z.of_nat (String.length (decimal (N.pos p))) + k) ++ rest) = Some (JFloat x, rest)).
    { apply scan_repr_digits; [exact Hr|exact F1|].
      intros Hk. now rewrite float_of_decimal_rescale. }
    destruct s; cbn [minus append]; [exact U|].
    now apply scan_number_unsigned.
Qed.

(** *** Values *)

Lemma after_prefix_app (p rest : string) : after_prefix p (p ++ rest) = Some rest.
Proof.
  unfold after_prefix.
  assert (P : String.prefix p (p ++ rest) = true).
  { induction p as [|c p IH]; cbn; [now destruct rest|].
    destruct (ascii_dec c c); [exact IH|congruence]. }
  rewrite P. f_equal. rewrite length_app.
  replace (String.length p + String.length rest - String.length p)%nat
    with (String.length rest) by lia.
  rewrite (substring_skip _ _ p rest eq_refl). apply substring_all.
Qed.

Lemma after_prefix_head (a c : ascii) (p s : string) :
  a <> c -> after_prefix (String a p) (String c s) = None.
Proof.
  intro H. unfold after_prefix. cbn [String.prefix].
  destruct (ascii_dec a c); [congruence|reflexivity].
Qed.

(** A number starts with a minus sign or a digit. *)
Lemma scan_number_head (c : ascii) (s : string) (r : jvalue * string) :
  scan_number (String c s) = Some r -> c = "-"%char \/ is_digit c = true.
Proof.
  unfold scan_number. destruct (Ascii.eqb_spec c "-") as [->|_]; [now left|].
  unfold scan_unsigned, scan_int_part. destruct (is_digit c); [now right|discriminate].
Qed.

Lemma scan_value_number (fuel : nat) (s : string) (r : jvalue * string) :
  scan_number s = Some r -> scan_value (S fuel) s = Some r.
Proof.
  intro H. destruct s as [|c s]; [discriminate|].
  pose proof (scan_number_head c s r H) as Hc.
  assert (N : forall a, (a = "-"%char -> False) -> is_digit a = false -> a <> c).
  { intros a H1 H2 ->. destruct Hc; congruence. }
  cbn [scan_value].
  destruct (Ascii.eqb_spec c DQ) as [E|_]; [exfalso; eapply (N DQ); [discriminate|reflexivity|now symmetry]|].
  destruct (Ascii.eqb_spec c "{") as [E|_]; [exfalso; eapply (N "{"%char); [discriminate|reflexivity|now symmetry]|].
  destruct (Ascii.eqb_spec c "[") as [E|_]; [exfalso; eapply (N "["%char); [discriminate|reflexivity|now symmetry]|].
  rewrite !after_prefix_head by (apply N; [discriminate|reflexivity]).
  now rewrite H.
Qed.

Lemma scan_number_no_ws (s : string) (r : jvalue * string) :
  scan_number s = Some r -> skip_ws s = s.
Proof.
  intro H. destruct s as [|c s]; [reflexivity|].
  pose proof (scan_number_head c s r H) as Hc. cbn [skip_ws].
  assert (W : is_ws c = false).
  { destruct Hc as [->|Hd]; [reflexivity|].
    unfold is_ws, is_digit in *. apply andb_prop in Hd as [H1 H2].
    apply N.leb_le in H1. apply N.leb_le in H2.
    repeat match goal with |- context [(?a =? ?b)%N] =>
      destruct (N.eqb_spec a b); [lia|] end. reflexivity. }
  now rewrite W.
Qed.

Lemma scan_value_literal (fuel : nat) (c : ascii) (t : string) (r : jvalue * string) :
  Ascii.eqb c DQ = false -> Ascii.eqb c "{" = false -> Ascii.eqb c "[" = false ->
  "n"%char <> c -> "t"%char <> c -> "f"%char <> c ->
  scan_number (String c t) = None -> scan_literal (String c t) = Some r ->
  scan_value (S fuel) (String c t) = Some r.
Proof.
  intros H1 H2 H3 H4 H5 H6 Hn Hl. cbn [scan_value]. rewrite H1, H2, H3.
  rewrite !after_prefix_head by assumption. now rewrite Hn.
Qed.

Lemma after_prefix_mismatch (a c : ascii) (p q rest : string) :
  a <> c -> after_prefix (String a p) (String c q ++ rest) = None.
Proof. intro H. cbn [append]. now apply after_prefix_head. Qed.

Lemma scan_literal_nan (rest : string) :
  scan_literal ("NaN" ++ rest) = Some (JFloat (SF2Prim S754_nan), rest).
Proof. unfold scan_literal. now rewrite after_prefix_app. Qed.

Lemma scan_literal_inf (rest : string) :
  scan_literal ("Infinity" ++ rest) = Some (JFloat (SF2Prim (S754_infinity false)), rest).
Proof.
  unfold scan_literal. rewrite (after_prefix_app "Infinity").
  rewrite (after_prefix_mismatch "N" "I") by discriminate. reflexivity.
Qed.

Lemma scan_literal_neg_inf (rest : string) :
  scan_literal ("-Infinity" ++ rest) = Some (JFloat (SF2Prim (S754_infinity true)), rest).
Proof.
  unfold scan_literal. rewrite (after_prefix_app "-Infinity").
  rewrite (after_prefix_mismatch "N" "-"), (after_prefix_mismatch "I" "-") by discriminate.
  reflexivity.
Qed.

(** A float, as the encoder writes it, reads back as itself. *)
Lemma scan_value_float (fuel : nat) (x : float) (rest : string) :
  ends_number rest = true ->
  scan_value (S fuel) (floatstr x ++ rest) = Some (JFloat x, rest) /\
  skip_ws (floatstr x ++ rest) = floatstr x ++ rest.
Proof.
  intros Hr. unfold floatstr.
  destruct (Prim2SF x) as [s|s| |s m e] eqn:Hx.
  - assert (F : is_finite x = true) by (unfold is_finite; now rewrite Hx).
    pose proof (scan_number_repr x rest F Hr) as H.
    split; [now apply scan_value_number|now apply (scan_number_no_ws _ _ H)].
  - assert (Z0 : SF2Prim (S754_infinity s) = x) by (rewrite <- Hx; apply SF2Prim_Prim2SF).
    destruct s; (split; [|reflexivity]); rewrite <- Z0.
    + apply (scan_value_literal fuel "-" ("Infinity" ++ rest));
        try reflexivity; try discriminate. apply scan_literal_neg_inf.
    + apply (scan_value_literal fuel "I" ("nfinity" ++ rest));
        try reflexivity; try discriminate. apply scan_literal_inf.
  - assert (Z0 : SF2Prim S754_nan = x) by (rewrite <- Hx; apply SF2Prim_Prim2SF).
    split; [|reflexivity]. rewrite <- Z0.
    apply (scan_value_literal fuel "N" ("aN" ++ rest));
      try reflexivity; try discriminate. apply scan_literal_nan.
  - assert (F : is_finite x = true) by (unfold is_finite; now rewrite Hx).
    pose proof (scan_number_repr x rest F Hr) as H.
    split; [now apply scan_value_number|now apply (scan_number_no_ws _ _ H)].
Qed.

(** *** Strings *)

Lemma scan_string_char (c : ascii) (t : string) :
  scan_string (encode_char c ++ t) = prepend c (scan_string t).
Proof.
  destruct c as [[|] [|] [|] [|] [|] [|] [|] [|]]; reflexivity.
Qed.

Lemma scan_string_encode (s rest : string) :
  scan_string (encode_chars s ++ String DQ rest) = Some (s, rest).
Proof.
  induction s as [|c s IH].
  - reflexivity.
  - cbn [encode_chars]. rewrite append_assoc, scan_string_char, IH. reflexivity.
Qed.

(** *** The object *)

Lemma json_dumps_text (r : ReturnResult) :
  json_dumps (to_json r) =
  "{" ++ NL ++
  "  " ++ quoted "current_price" ++ ": " ++ floatstr (current_price r) ++ "," ++ NL ++
  "  " ++ quoted "year_ago_price" ++ ": " ++ floatstr (year_ago_price r) ++ "," ++ NL ++
  "  " ++ quoted "year_return" ++ ": " ++ floatstr (year_return r) ++ "," ++ NL ++
  "  " ++ quoted "date" ++ ": " ++ encode_string (date r) ++ NL ++
  "}".
Proof.
  unfold json_dumps, to_json.
  cbn [encode map join fst snd newline_indent times].
  change (encode_string "current_price") with (quoted "current_price").
  change (encode_string "year_ago_price") with (quoted "year_ago_price").
  change (encode_string "year_return") with (quoted "year_return").
  change (encode_string "date") with (quoted "date").
  change (newline_indent 1) with (NL ++ "  ").
  change (newline_indent 0) with NL.
  rewrite !append_assoc. reflexivity.
Qed.

Lemma skip_ws_space (t : string) : skip_ws (String " " t) = skip_ws t.
Proof. reflexivity. Qed.

Lemma skip_ws_newline (t : string) : skip_ws (String "010" t) = skip_ws t.
Proof. reflexivity. Qed.

Lemma skip_ws_stop (c : ascii) (t : string) :
  is_ws c = false -> skip_ws (String c t) = String c t.
Proof. intro H. cbn [skip_ws]. now rewrite H. Qed.

Lemma member_float (f0 fm : nat) (key : string) (x : float) (rest : string)
    (acc : list (string * jvalue)) :
  skip_ws rest = rest ->
  scan_members (scan_value (S f0)) (S fm)
    (quoted (encode_chars key) ++ ": " ++ floatstr x ++ "," ++ NL ++ "  " ++ rest) acc =
  scan_members (scan_value (S f0)) fm rest ((key, JFloat x) :: acc).
Proof.
  intros Hw.
  destruct (scan_value_float f0 x ("," ++ NL ++ "  " ++ rest) eq_refl) as [Hv Hs].
  unfold quoted. cbn [append scan_members].
  change (Ascii.eqb DQ DQ) with true. cbn [negb].
  rewrite append_assoc. cbn [append].
  rewrite scan_string_encode.
  rewrite (skip_ws_stop ":") by reflexivity.
  change (Ascii.eqb ":" ":") with true. cbn [negb].
  rewrite skip_ws_space.
  change (floatstr x ++ String "," (NL ++ String " " (String " " rest)))
    with (floatstr x ++ "," ++ NL ++ "  " ++ rest).
  rewrite Hs, Hv.
  cbn [append]. rewrite (skip_ws_stop ",") by reflexivity.
  change (Ascii.eqb "," "}") with false. change (Ascii.eqb "," ",") with true. cbv iota.
  unfold NL. cbn [append]. rewrite skip_ws_newline, !skip_ws_space.
  now rewrite Hw.
Qed.

Lemma member_last_string (f0 fm : nat) (key s : string) (rest : string)
    (acc : list (string * jvalue)) :
  scan_members (scan_value (S f0)) (S fm)
    (quoted (encode_chars key) ++ ": " ++ encode_string s ++ NL ++ "}" ++ rest) acc =
  Some (JObject (rev ((key, JString s) :: acc)), rest).
Proof.
  unfold encode_string, quoted. cbn [append scan_members].
  change (Ascii.eqb DQ DQ) with true. cbn [negb].
  rewrite append_assoc. cbn [append].
  rewrite scan_string_encode.
  rewrite (skip_ws_stop ":") by reflexivity.
  change (Ascii.eqb ":" ":") with true. cbn [negb].
  rewrite skip_ws_space. rewrite (skip_ws_stop DQ) by reflexivity.
  cbn [scan_value]. change (Ascii.eqb DQ DQ) with true. cbv iota.
  rewrite append_assoc. cbn [append]. rewrite scan_string_encode.
  unfold NL. cbn [append].
  rewrite skip_ws_newline. rewrite (skip_ws_stop "}") by reflexivity.
  change (Ascii.eqb "}" "}") with true. cbv iota. reflexivity.
Qed.

Lemma scan_value_object (fuel : nat) (rest : string) :
  scan_value (S fuel) (String "{" rest) =
  match skip_ws rest with
  | String d rest' =>
      if Ascii.eqb d "}" then Some (JObject [], rest')
      else scan_members (scan_value fuel) fuel (skip_ws rest) []
  | EmptyString => None
  end.
Proof. reflexivity. Qed.

Lemma scan_object_text (r : ReturnResult) (fuel : nat) :
  scan_value (S (S (S (S (S fuel))))) (json_dumps (to_json r)) = Some (to_json r, "").
Proof.
  rewrite json_dumps_text.
  change ("{" ++ NL ++ "  " ++ ?m) with (String "{" (String "010" (String " " (String " " m)))).
  rewrite scan_value_object.
  rewrite skip_ws_newline, !skip_ws_space.
  assert (W : forall a t, skip_ws (quoted a ++ t) = quoted a ++ t) by reflexivity.
  rewrite W.
  assert (Q : forall a t, exists t', quoted a ++ t = String DQ t') by (intros; eexists; reflexivity).
  destruct (Q "current_price" (": " ++ floatstr (current_price r) ++ "," ++ NL ++
    "  " ++ quoted "year_ago_price" ++ ": " ++ floatstr (year_ago_price r) ++ "," ++ NL ++
    "  " ++ quoted "year_return" ++ ": " ++ floatstr (year_return r) ++ "," ++ NL ++
    "  " ++ quoted "date" ++ ": " ++ encode_string (date r) ++ NL ++ "}")) as [t' Et].
  rewrite Et at 1. change (Ascii.eqb DQ "}") with false. cbv iota.
  change (quoted "current_price") with (quoted (encode_chars "current_price")).
  change (quoted "year_ago_price") with (quoted (encode_chars "year_ago_price")).
  change (quoted "year_return") with (quoted (encode_chars "year_return")).
  change (quoted "date") with (quoted (encode_chars "date")).
  rewrite member_float by apply W.
  rewrite member_float by apply W.
  rewrite member_float by apply W.
  replace (NL ++ "}") with (NL ++ "}" ++ "") by reflexivity.
  rewrite member_last_string. reflexivity.
Qed.

(** Reading what [json.dumps] wrote gives the dictionary back. *)
Lemma json_loads_dumps (r : ReturnResult) :
  json_loads (json_dumps (to_json r)) = Some (to_json r).
Proof.
  unfold json_loads.
  assert (L : exists n, String.length (json_dumps (to_json r)) = S (S (S (S (S n))))).
  { rewrite json_dumps_text. unfold quoted, NL. cbn [append String.length].
    eexists. reflexivity. }
  destruct L as [n L]. rewrite L.
  assert (W : skip_ws (json_dumps (to_json r)) = json_dumps (to_json r))
    by (rewrite json_dumps_text; reflexivity).
  rewrite W, scan_object_text. reflexivity.
Qed.

(** C5: in JSON mode the presenter prints one text, an object indented
    by two spaces with the four fields [current_price],
    [year_ago_price], [year_return] and [date] in this order;
    [json.loads] of that text gives the four values back, each float
    as the value it was; without a result nothing is printed. *)
Theorem json_round_trip (r : ReturnResult) :
  printed (fst (display_json (Some r))) = [json_dumps (to_json r)] /\
  json_dumps (to_json r) =
    "{" ++ NL ++
    "  " ++ quoted "current_price" ++ ": " ++ floatstr (current_price r) ++ "," ++ NL ++
    "  " ++ quoted "year_ago_price" ++ ": " ++ floatstr (year_ago_price r) ++ "," ++ NL ++
    "  " ++ quoted "year_return" ++ ": " ++ floatstr (year_return r) ++ "," ++ NL ++
    "  " ++ quoted "date" ++ ": " ++ encode_string (date r) ++ NL ++
    "}" /\
  json_loads (json_dumps (to_json r)) =
    Some (JObject [("current_price", JFloat (current_price r));
                   ("year_ago_price", JFloat (year_ago_price r));
                   ("year_return", JFloat (year_return r));
                   ("date", JString (date r))]) /\
  printed (fst (display_json None)) = [].
Proof.
  repeat split.
  - apply json_dumps_text.
  - apply json_loads_dumps.
Qed.

(** * Further properties *)

(** ** Failures and edge cases of the fetch *)


(** X2: when the request for the latest day raises, or the request for
    the year raises after a latest bar was there, the run prints the
    handler's message for that exception, the text of the exception
    included as it is, and exits with status 1, whatever the flags. *)
Theorem request_failure (args : Args) (isatty : bool) (yf : Yahoo) (u : unit)
    (tk : Ticker) (e : exn) :
  yf_import yf = Returns u ->
  yf_Ticker yf "^GSPC" = Returns tk ->
  history tk "1d" = Raises e \/
  (exists cur, history tk "1d" = Returns cur /\ empty cur = false /\
               history tk "1y" = Raises e) ->
  main args isatty yf =
    ([Enters Fget_sp500_year_return; Prints (handler_message e)], 1).
Proof.
  intros Hi Ht H. unfold main, get_sp500_year_return, fetch_body.
  rewrite Hi, Ht. cbn [andThen].
  destruct H as [H|[cur [Hc [Hne H]]]].
  - rewrite H. destruct e; reflexivity.
  - rewrite Hc. cbn [andThen]. rewrite Hne.
    destruct (iloc_last_nonempty cur Hne) as [lb ->]. cbn [andThen].
    rewrite H. destruct e; reflexivity.
Qed.

(** X3: when both requests answer, the result takes its current price
    and its date from the last row of the latest frame, however many
    rows it has, and its year-ago price from the first row of the
    year's frame, provided that one is not zero. *)
Theorem fetch_fields (yf : Yahoo) (u : unit) (tk : Ticker)
    (earlier later : DataFrame) (latest oldest : Bar) :
  yf_import yf = Returns u ->
  yf_Ticker yf "^GSPC" = Returns tk ->
  history tk "1d" = Returns (earlier ++ [latest])%list ->
  history tk "1y" = Returns (oldest :: later) ->
  later <> [] ->
  (bar_close oldest =? 0)%float = false ->
  get_sp500_year_return yf =
    ([Enters Fget_sp500_year_return],
     Some {| current_price := bar_close latest;
             year_ago_price := bar_close oldest;
             year_return :=
               ((bar_close latest - bar_close oldest) / bar_close oldest * 100)%float;
             date := strftime_Ymd (bar_index latest) |}).
Proof.
  intros Hi Ht Hc Hh Hl Hz.
  rewrite (get_fetched yf u tk _ _ Hi Ht Hc Hh). unfold fetched.
  assert (E1 : empty (earlier ++ [latest])%list = false) by (destruct earlier; reflexivity).
  assert (E2 : (len (oldest :: later) <? 2) = false).
  { destruct later; [congruence|]. apply Z.ltb_ge. unfold len. cbn [List.length]. lia. }
  assert (E3 : iloc (earlier ++ [latest])%list (-1) = Returns latest).
  { unfold iloc. cbn [Z.eqb]. now rewrite rev_app_distr. }
  rewrite E1, E2, E3. cbn [iloc Z.eqb]. now rewrite Hz.
Qed.

Lemma result_formula (yf : Yahoo) (r : ReturnResult) :
  snd (get_sp500_year_return yf) = Some r ->
  year_return r =
    ((current_price r - year_ago_price r) / year_ago_price r * 100)%float.
Proof.
  intro H. destruct (get_result yf r H) as [t Ht]. exact (fetch_body_result yf t r Ht).
Qed.

Lemma formula_nan (c y : float) :
  Prim2SF c = S754_nan \/ Prim2SF y = S754_nan ->
  Prim2SF ((c - y) / y * 100)%float = S754_nan.
Proof.
  intros H. rewrite mul_spec, div_spec, sub_spec.
  destruct H as [H|H]; rewrite H.
  - destruct (Prim2SF y); reflexivity.
  - destruct (Prim2SF c); reflexivity.
Qed.

(** X4: a close that is not a number is not rejected: the fetch
    succeeds, the return is not a number either, the text presenter
    prints it as [nan%] with no plus sign and in red, and the JSON
    presenter writes it as [NaN]. *)
Theorem nan_close (yf : Yahoo) (r : ReturnResult) (colorize isatty : bool) :
  snd (get_sp500_year_return yf) = Some r ->
  Prim2SF (current_price r) = S754_nan \/ Prim2SF (year_ago_price r) = S754_nan ->
  let p := palette colorize isatty in
  Prim2SF (year_return r) = S754_nan /\
  nth 3 (printed (fst (display_return (Some r) colorize isatty))) "" =
    BOLD p ++ RED p ++ "  " ++ "nan%" ++ RESET p /\
  floatstr (year_return r) = "NaN".
Proof.
  intros H Hn. pose proof (formula_nan _ _ Hn) as N.
  rewrite <- (result_formula yf r H) in N. cbv zeta. split; [exact N|]. split.
  - rewrite display_return_line. unfold return_line, percentage, color, sign, format_2f.
    rewrite leb_spec, N. reflexivity.
  - unfold floatstr. now rewrite N.
Qed.

Lemma nan_close_witness :
  Prim2SF nan = S754_nan /\
  nth 3 (printed (fst (display_return
    (Some {| current_price := nan; year_ago_price := 4500; year_return := nan;
             date := "2024-01-02" |}) true true))) "" =
    String ESC "[1m" ++ String ESC "[91m" ++ "  " ++ "nan%" ++ String ESC "[0m" /\
  floatstr nan = "NaN".
Proof.
  apply (nan_close yahoo_nan
    {| current_price := nan; year_ago_price := 4500; year_return := nan;
       date := "2024-01-02" |} true true).
  - reflexivity.
  - left. reflexivity.
Defined.

Lemma formula_flat (y : float) (s : bool) (m : positive) (e : Z) :
  Prim2SF y = S754_finite s m e ->
  Prim2SF ((y - y) / y * 100)%float = S754_zero s.
Proof.
  intros H. rewrite mul_spec, div_spec, sub_spec, H.
  assert (E : SF64sub (S754_finite s m e) (S754_finite s m e) = S754_zero false).
  { unfold SF64sub, SFsub. cbv zeta. rewrite Z.sub_diag. reflexivity. }
  rewrite E. destruct s; reflexivity.
Qed.

(** X5: when the index closes where it closed a year before, at a
    positive price, the return line reads [+0.00%], in green. *)
Theorem flat_year (yf : Yahoo) (r : ReturnResult) (colorize isatty : bool)
    (m : positive) (e : Z) :
  snd (get_sp500_year_return yf) = Some r ->
  current_price r = year_ago_price r ->
  Prim2SF (year_ago_price r) = S754_finite false m e ->
  nth 3 (printed (fst (display_return (Some r) colorize isatty))) "" =
    let p := palette colorize isatty in
    BOLD p ++ GREEN p ++ "  " ++ "+0.00%" ++ RESET p.
Proof.
  intros H Heq Hy. pose proof (result_formula yf r H) as F. rewrite Heq in F.
  pose proof (formula_flat _ _ _ _ Hy) as Z0. rewrite <- F in Z0.
  rewrite display_return_line. unfold return_line, percentage, color, sign, format_2f.
  rewrite leb_spec, Z0. reflexivity.
Qed.

Lemma flat_year_witness :
  nth 3 (printed (fst (display_return
    (Some {| current_price := 4500; year_ago_price := 4500; year_return := 0;
             date := "2024-01-02" |}) false true))) "" = "  +0.00%".
Proof.
  apply (flat_year yahoo_flat
    {| current_price := 4500; year_ago_price := 4500; year_return := 0;
       date := "2024-01-02" |} false true 4947802324992000 (-40)); reflexivity.
Defined.

Lemma request_failure_witness :
  main text_args true yahoo_offline =
    ([Enters Fget_sp500_year_return;
      Prints (handler_message (OtherException "connection refused"))], 1).
Proof.
  apply (request_failure text_args true yahoo_offline tt
           {| history := fun _ => Raises (OtherException "connection refused") |}).
  - reflexivity.
  - reflexivity.
  - left. reflexivity.
Defined.

Lemma fetch_fields_witness :
  get_sp500_year_return yahoo_up =
    ([Enters Fget_sp500_year_return],
     Some {| current_price := 5000; year_ago_price := 4500;
             year_return := ((5000 - 4500) / 4500 * 100)%float;
             date := strftime_Ymd (day 2024 1 2) |}).
Proof.
  apply (fetch_fields yahoo_up tt
           {| history := fun period =>
                if String.eqb period "1d" then Returns [bar (day 2024 1 2) 5000]
                else Returns [bar (day 2023 1 3) 4500; bar (day 2023 6 1) 4800;
                              bar (day 2024 1 2) 5000] |}
           [] [bar (day 2023 6 1) 4800; bar (day 2024 1 2) 5000]
           (bar (day 2024 1 2) 5000) (bar (day 2023 1 3) 4500));
    try reflexivity. discriminate.
Defined.

(** ** Formatting *)

Lemma round_half_even_nearest (num den : Z) :
  0 < den -> Z.abs (2 * (num - round_half_even num den * den)) <= den.
Proof.
  intros Hd. unfold round_half_even.
  pose proof (Z.div_mod num den ltac:(lia)) as D.
  pose proof (Z.mod_pos_bound num den Hd) as B.
  generalize dependent (num / den). generalize dependent (num mod den). intros r B q D.
  destruct (Z.compare_spec (2 * r) den); [destruct (Z.even q)| |]; nia.
Qed.

Lemma round_half_even_nonneg (num den : Z) :
  0 <= num -> 0 < den -> 0 <= round_half_even num den.
Proof.
  intros Hn Hd. unfold round_half_even.
  pose proof (Z.div_pos num den Hn Hd).
  destruct (2 * (num mod den) ?= den); [destruct (Z.even _)| |]; lia.
Qed.

Lemma hundredths_nearest (m : positive) (e : Z) :
  Z.abs (2 * (100 * Z.pos m * pw e - Z.of_N (hundredths m e) * pw (- e))) <= pw (- e).
Proof.
  unfold hundredths. destruct (Z.leb_spec 0 e) as [He|He].
  - destruct (pw_exact e He) as [-> ->].
    assert (0 < 2 ^ e) by (apply Z.pow_pos_nonneg; lia).
    rewrite Z2N.id by nia. replace (100 * Z.pos m * 2 ^ e - Z.pos m * 2 ^ e * 100 * 1) with 0 by ring.
    cbn. lia.
  - assert (P : pw e = 1) by (unfold pw; now rewrite Z.max_r by lia).
    assert (Q : pw (- e) = 2 ^ (- e)) by (unfold pw; now rewrite Z.max_l by lia).
    rewrite P, Q.
    assert (0 < 2 ^ (- e)) by (apply Z.pow_pos_nonneg; lia).
    rewrite Z2N.id by (apply round_half_even_nonneg; lia).
    pose proof (round_half_even_nearest (Z.pos m * 100) (2 ^ (- e)) ltac:(lia)) as N.
    replace (100 * Z.pos m * 1) with (Z.pos m * 100) by ring. exact N.
Qed.

Lemma fixed2_value (n : N) :
  exists ip fp, fixed2 false n = ip ++ "." ++ fp /\ String.length fp = 2%nat /\
                digits_acc (ip ++ fp) 0 = n.
Proof.
  unfold fixed2. exists (decimal (n / 100)), (zfill 2 (decimal (n mod 100))).
  pose proof (zfill_value 2 (n mod 100)) as V.
  destruct (zfill2_mod100 n) as [d1 [d2 [E _]]]. rewrite E in *.
  repeat split. rewrite digits_acc_app, digits_acc_shift, decimal_value, V.
  cbn [String.length]. change (10 ^ N.of_nat 2)%N with 100%N.
  pose proof (N.div_mod n 100 ltac:(lia)). lia.
Qed.

(** X6: the two decimals printed for the float [m * 2^e] are the
    nearest: read as a number of hundredths, the digits differ from
    the exact value by at most half a hundredth. *)
Theorem format_2f_nearest (x : float) (s : bool) (m : positive) (e : Z) :
  Prim2SF x = S754_finite s m e ->
  exists ip fp,
    format_2f false x = minus s ++ ip ++ "." ++ fp /\
    String.length fp = 2%nat /\
    Z.abs (2 * (100 * Z.pos m * pw e - Z.of_N (digits_acc (ip ++ fp) 0) * pw (- e)))
      <= pw (- e).
Proof.
  intros H. unfold format_2f. rewrite H.
  destruct (fixed2_value (hundredths m e)) as [ip [fp [E [L V]]]].
  exists ip, fp. rewrite E, V. repeat split; [exact L|apply hundredths_nearest].
Qed.

Lemma format_2f_nearest_witness :
  exists ip fp,
    format_2f false 2.675 = minus false ++ ip ++ "." ++ fp /\
    String.length fp = 2%nat /\
    Z.abs (2 * (100 * Z.pos 6023564501608038 * pw (-51)
                - Z.of_N (digits_acc (ip ++ fp) 0) * pw (- (-51)))) <= pw (- (-51)).
Proof.
  apply (format_2f_nearest 2.675 false 6023564501608038 (-51)). reflexivity.
Defined.

(** *** Thousands separators *)

Lemma without_commas_app (a b : string) :
  without_commas (a ++ b) = without_commas a ++ without_commas b.
Proof.
  induction a as [|c a IH]; cbn; [reflexivity|]. rewrite IH. now destruct (Ascii.eqb c ",").
Qed.

Lemma without_commas_digits (s : string) :
  all_chars is_digit s = true -> without_commas s = s.
Proof.
  induction s as [|c s IH]; cbn; [reflexivity|]. intros [Hc Hs]%andb_prop.
  rewrite (IH Hs). destruct (Ascii.eqb_spec c ",") as [->|]; [discriminate|reflexivity].
Qed.

Lemma without_commas_of_list (l : list ascii) :
  without_commas (string_of_list_ascii l) =
  string_of_list_ascii (filter (fun c => negb (Ascii.eqb c ",")) l).
Proof.
  induction l as [|c l IH]; cbn; [reflexivity|]. rewrite IH. now destruct (Ascii.eqb c ",").
Qed.

Lemma filter_group_rev (l : list ascii) (k : nat) :
  forallb is_digit l = true ->
  filter (fun c => negb (Ascii.eqb c ",")) (group_rev l k) = l.
Proof.
  revert k. induction l as [|c l IH]; intros k; cbn; [reflexivity|].
  intros [Hc Hl]%andb_prop.
  assert (N : Ascii.eqb c "," = false)
    by (destruct (Ascii.eqb_spec c ",") as [->|]; [discriminate|reflexivity]).
  destruct k; cbn; rewrite N; cbn; now rewrite IH.
Qed.

Lemma filter_rev' {A} (f : A -> bool) (l : list A) : filter f (rev l) = rev (filter f l).
Proof.
  induction l as [|a l IH]; cbn; [reflexivity|].
  rewrite filter_app, IH. cbn. destruct (f a); cbn; [reflexivity|now rewrite app_nil_r].
Qed.

Lemma without_commas_thousands (s : string) :
  all_chars is_digit s = true -> without_commas (thousands s) = s.
Proof.
  intros H. unfold thousands.
  rewrite without_commas_of_list, filter_rev', filter_group_rev.
  - now rewrite rev_involutive, string_of_list_ascii_of_string.
  - now rewrite forallb_rev', forallb_list_of_string.
Qed.

(** X7: the thousands separators of a price change nothing else:
    without its commas a formatted price is the dollar sign and the
    plain two-decimal format of the float, for every float. *)
Theorem grouping_inserts_commas_only (x : float) :
  without_commas (format_price x) = "$" ++ format_2f false x.
Proof.
  unfold format_price. cbn [append without_commas Ascii.eqb Bool.eqb]. f_equal.
  unfold format_2f.
  assert (F : forall n, without_commas (fixed2 true n) = fixed2 false n).
  { intros n. unfold fixed2. rewrite without_commas_app.
    rewrite without_commas_thousands by apply decimal_digits.
    f_equal. cbn [append without_commas]. change (Ascii.eqb "." ",") with false. cbv iota.
    f_equal. apply without_commas_digits, zfill_digits, decimal_digits. }
  destruct (Prim2SF x) as [s|s| |s m e]; rewrite ?without_commas_app, ?F;
    try destruct s; reflexivity.
Qed.

Lemma group_rev_commas (l : list ascii) (k i : nat) :
  forallb is_digit l = true -> (k < 4)%nat ->
  (i < List.length (group_rev l k))%nat ->
  (nth i (group_rev l k) "0"%char = ","%char <-> (i mod 4 = k)%nat).
Proof.
  revert k i. induction l as [|c l IH]; intros k i Hd Hk Hi; [cbn in Hi; lia|].
  cbn in Hd. apply andb_prop in Hd as [Hc Hl].
  assert (N : c <> ","%char) by (intros ->; discriminate).
  destruct k as [|k]; cbn [group_rev] in *.
  - destruct i as [|[|i]]; cbn [nth List.length] in *.
    + split; [reflexivity|reflexivity].
    + split; [congruence|discriminate].
    + rewrite (IH 2%nat i Hl) by lia.
      replace (S (S i)) with (i + 2)%nat by lia.
      pose proof (Nat.Div0.mod_add (i + 2) 1 4) as M.
      pose proof (Nat.mod_upper_bound i 4 ltac:(lia)).
      pose proof (Nat.mod_upper_bound (i + 2) 4 ltac:(lia)).
      pose proof (Nat.div_mod_eq i 4). pose proof (Nat.div_mod_eq (i + 2) 4).
      lia.
  - destruct i as [|i]; cbn [nth List.length] in *.
    + split; [congruence|]. rewrite Nat.Div0.mod_0_l. discriminate.
    + rewrite (IH k i Hl) by lia.
      pose proof (Nat.mod_upper_bound i 4 ltac:(lia)).
      pose proof (Nat.mod_upper_bound (S i) 4 ltac:(lia)).
      pose proof (Nat.div_mod_eq i 4). pose proof (Nat.div_mod_eq (S i) 4).
      lia.
Qed.

Lemma last_cons {A} (a d : A) (l : list A) : l <> [] -> last (a :: l) d = last l d.
Proof. destruct l; [congruence|reflexivity]. Qed.

Lemma group_rev_nonempty (l : list ascii) (k : nat) : l <> [] -> group_rev l k <> [].
Proof. destruct l; [congruence|]. destruct k; discriminate. Qed.

Lemma last_group_rev (l : list ascii) (k : nat) (d : ascii) :
  l <> [] -> last (group_rev l k) d = last l d.
Proof.
  revert k. induction l as [|c l IH]; intros k H; [congruence|].
  destruct l as [|c' l]; [destruct k; reflexivity|].
  assert (NE : c' :: l <> []) by discriminate.
  rewrite (last_cons c d (c' :: l) NE).
  destruct k.
  - change (group_rev (c :: c' :: l) 0) with (","%char :: c :: group_rev (c' :: l) 2).
    rewrite last_cons by discriminate.
    rewrite last_cons by (apply group_rev_nonempty, NE). now apply IH.
  - change (group_rev (c :: c' :: l) (S k)) with (c :: group_rev (c' :: l) k).
    rewrite last_cons by (apply group_rev_nonempty, NE). now apply IH.
Qed.

Lemma rev_chars_thousands (s : string) :
  rev (list_ascii_of_string (thousands s)) = group_rev (rev (list_ascii_of_string s)) 3.
Proof.
  unfold thousands. now rewrite list_ascii_of_string_of_list_ascii, rev_involutive.
Qed.

Lemma length_list_of_string (s : string) :
  List.length (list_ascii_of_string s) = String.length s.
Proof. induction s; cbn; congruence. Qed.

(** X8: in a grouped run of digits the commas stand exactly at every
    fourth place counted from the right, and the first character is
    the first digit, never a comma. *)
Theorem thousands_groups (s : string) :
  all_chars is_digit s = true ->
  (forall i, (i < String.length (thousands s))%nat ->
     (nth i (rev (list_ascii_of_string (thousands s))) "0"%char = ","%char
      <-> (i mod 4 = 3)%nat)) /\
  (forall c t, s = String c t -> exists t', thousands s = String c t').
Proof.
  intros Hd.
  assert (D : forallb is_digit (rev (list_ascii_of_string s)) = true)
    by now rewrite forallb_rev', forallb_list_of_string.
  split.
  - intros i Hi. rewrite rev_chars_thousands. apply group_rev_commas; [exact D|lia|].
    rewrite <- rev_chars_thousands, length_rev, length_list_of_string. exact Hi.
  - intros c t ->.
    pose proof (last_group_rev (rev (list_ascii_of_string (String c t))) 3 "0"%char) as L.
    rewrite <- rev_chars_thousands in L.
    assert (NE : rev (list_ascii_of_string (String c t)) <> []).
    { cbn. intros E. apply app_eq_nil in E as [_ E]. discriminate. }
    specialize (L NE).
    assert (R : forall (l : list ascii) d, last (rev l) d = hd d l).
    { intros l d. destruct l as [|a l]; [reflexivity|]. cbn. now rewrite last_last. }
    rewrite !R in L. cbn [list_ascii_of_string hd] in L.
    assert (T : thousands (String c t) <> "").
    { intros E. apply (f_equal list_ascii_of_string) in E. apply (f_equal (@rev ascii)) in E.
      rewrite rev_chars_thousands in E. cbn [list_ascii_of_string rev] in E.
      now apply (group_rev_nonempty _ 3 NE) in E. }
    destruct (thousands (String c t)) as [|c' t']; [congruence|]. cbn in L.
    subst c'. now exists t'.
Qed.

Lemma thousands_groups_witness :
  (forall i, (i < String.length (thousands "1234567"))%nat ->
     (nth i (rev (list_ascii_of_string (thousands "1234567"))) "0"%char = ","%char
      <-> (i mod 4 = 3)%nat)) /\
  (forall c t, "1234567" = String c t -> exists t', thousands "1234567" = String c t').
Proof. apply (thousands_groups "1234567"). reflexivity. Defined.

(** ** Colors *)

Lemma strip_ansi_from_app (a b : string) (st : bool) :
  strip_ansi_from (a ++ b) st = strip_ansi_from a st ++ strip_ansi_from b (ansi_state a st).
Proof.
  revert st. induction a as [|c a IH]; intros st; cbn; [reflexivity|].
  destruct st; [apply IH|]. destruct (Ascii.eqb c ESC); [apply IH|].
  cbn. now rewrite IH.
Qed.

Lemma strip_plain (a : string) :
  has_esc a = false -> strip_ansi_from a false = a /\ ansi_state a false = false.
Proof.
  induction a as [|c a IH]; cbn; [auto|]. intros [Hc Ha]%orb_false_elim.
  rewrite Hc. destruct (IH Ha) as [-> ->]. auto.
Qed.

Lemma strip_plain_app (a b : string) :
  has_esc a = false ->
  strip_ansi_from (a ++ b) false = a ++ strip_ansi_from b false.
Proof.
  intros H. rewrite strip_ansi_from_app. now destruct (strip_plain a H) as [-> ->].
Qed.

Lemma strip_newline (b : string) :
  strip_ansi_from (String "010" b) false = String "010" (strip_ansi_from b false).
Proof. reflexivity. Qed.

Lemma strip_code (n b : string) :
  all_chars is_digit n = true ->
  strip_ansi_from (String ESC ("[" ++ n ++ "m") ++ b) false = strip_ansi_from b false.
Proof.
  intros H. cbn [append strip_ansi_from]. change (Ascii.eqb ESC ESC) with true. cbv iota.
  change (Ascii.eqb "[" "m") with false. cbn [negb].
  rewrite append_assoc. 
  induction n as [|c n IH]; [reflexivity|].
  cbn in H. apply andb_prop in H as [Hc Hn]. cbn [append strip_ansi_from].
  assert (E : Ascii.eqb c "m" = false)
    by (destruct (Ascii.eqb_spec c "m") as [->|]; [discriminate|reflexivity]).
  rewrite E. cbn [negb]. now apply IH.
Qed.

Ltac no_esc :=
  first [ reflexivity | apply format_2f_no_esc | apply strftime_no_esc ].

(** X9: colors change nothing but the escape sequences: with the
    sequences taken out, what the text presenter writes with any flag
    on any stream is what it writes without colors. *)
Theorem colors_only_add_escapes (r : ReturnResult) (ts : Timestamp)
    (colorize isatty : bool) :
  date r = strftime_Ymd ts ->
  strip_ansi (stdout_text (printed (fst (display_return (Some r) colorize isatty)))) =
  stdout_text (printed (fst (display_return (Some r) false false))).
Proof.
  intros Hd. unfold strip_ansi, display_return, bind, enter, print, ret.
  cbn [fst snd app printed stdout_text]. rewrite Hd.
  unfold return_line, percentage, color, sign, format_price, palette.
  cbn [andb BOLD RESET GREEN RED]. 
  assert (C : forall n b, all_chars is_digit n = true ->
     strip_ansi_from (String ESC (String "[" (n ++ "m")) ++ b) false = strip_ansi_from b false)
    by apply strip_code.
  destruct (0 <=? year_return r)%float;
  (destruct (colorize && isatty); cbn [BOLD RESET GREEN RED];
  [ unfold NL; rewrite !append_assoc;
      repeat first
        [ rewrite strip_newline
        | rewrite (C "1") by reflexivity
        | rewrite (C "0") by reflexivity
        | rewrite (C "92") by reflexivity
        | rewrite (C "91") by reflexivity
        | rewrite strip_plain_app by no_esc ];
      reflexivity
  | unfold NL; rewrite !append_assoc;
    repeat first [ rewrite strip_newline | rewrite strip_plain_app by no_esc ];
    reflexivity ]).
Qed.

Lemma colors_only_add_escapes_witness :
  strip_ansi (stdout_text (printed (fst (display_return
    (Some {| current_price := 5000; year_ago_price := 4500;
             year_return := ((5000 - 4500) / 4500 * 100)%float;
             date := strftime_Ymd (day 2024 1 2) |}) true true)))) =
  stdout_text (printed (fst (display_return
    (Some {| current_price := 5000; year_ago_price := 4500;
             year_return := ((5000 - 4500) / 4500 * 100)%float;
             date := strftime_Ymd (day 2024 1 2) |}) false false))).
Proof.
  apply (colors_only_add_escapes
    {| current_price := 5000; year_ago_price := 4500;
       year_return := ((5000 - 4500) / 4500 * 100)%float;
       date := strftime_Ymd (day 2024 1 2) |} (day 2024 1 2) true true).
  reflexivity.
Defined.

(** ** The JSON text *)

Lemma encode_char_printable (c : ascii) : all_chars json_char (encode_char c) = true.
Proof. destruct c as [[|] [|] [|] [|] [|] [|] [|] [|]]; reflexivity. Qed.

Lemma encode_chars_printable (s : string) : all_chars json_char (encode_chars s) = true.
Proof.
  induction s as [|c s IH]; [reflexivity|].
  cbn [encode_chars]. now rewrite all_chars_app, encode_char_printable, IH.
Qed.

Lemma digit_json_char (c : ascii) : is_digit c = true -> json_char c = true.
Proof.
  unfold is_digit, json_char. intros [H1 H2]%andb_prop.
  apply N.leb_le in H1. apply N.leb_le in H2.
  apply orb_true_intro. left. apply andb_true_intro. split; apply N.leb_le; lia.
Qed.

Lemma digits_printable (s : string) :
  all_chars is_digit s = true -> all_chars json_char s = true.
Proof. apply all_chars_weaken, digit_json_char. Qed.

Lemma all_chars_substring (p : ascii -> bool) (s : string) (n m : nat) :
  all_chars p s = true -> all_chars p (substring n m s) = true.
Proof.
  revert n m. induction s as [|c s IH]; intros n m H.
  - destruct n, m; reflexivity.
  - cbn in H. apply andb_prop in H as [Hc Hs].
    destruct n as [|n]; [destruct m as [|m]|]; cbn; auto.
    now rewrite Hc, IH.
Qed.

Lemma float_repr_digits_printable (ds : string) (decpt : Z) :
  all_chars is_digit ds = true ->
  all_chars json_char (float_repr_digits ds decpt) = true.
Proof.
  intros H. pose proof (digits_printable ds H) as P. unfold float_repr_digits, exponent_text.
  assert (Z0 : forall k, all_chars json_char (zeros k) = true)
    by (intros; apply digits_printable, zeros_digits).
  assert (S0 : forall n m, all_chars json_char (substring n m ds) = true)
    by (intros; now apply all_chars_substring).
  assert (E0 : forall n, all_chars json_char (zfill 2 (decimal n)) = true)
    by (intros; apply digits_printable, zfill_digits, decimal_digits).
  repeat match goal with
         | |- context [if ?b then _ else _] => destruct b
         end;
    repeat (rewrite all_chars_app); rewrite ?Z0, ?S0, ?E0, ?P; reflexivity.
Qed.

Lemma floatstr_printable (x : float) : all_chars json_char (floatstr x) = true.
Proof.
  unfold floatstr, float_repr.
  destruct (Prim2SF x) as [s|s| |s m e]; try (destruct s; reflexivity); try reflexivity.
  destruct (shortest_decimal m e) as [c k].
  rewrite all_chars_app, float_repr_digits_printable by apply decimal_digits.
  destruct s; reflexivity.
Qed.

(** X10: the JSON text holds printable ASCII characters and newlines
    only, whatever the date string holds; in particular no escape
    character reaches the output in JSON mode. *)
Theorem json_text_printable (r : ReturnResult) :
  all_chars json_char (json_dumps (to_json r)) = true /\
  has_esc (json_dumps (to_json r)) = false.
Proof.
  assert (A : all_chars json_char (json_dumps (to_json r)) = true).
  { rewrite json_dumps_text. unfold encode_string, quoted, NL.
    repeat (rewrite all_chars_app || cbn [all_chars append]).
    rewrite !floatstr_printable, encode_chars_printable. reflexivity. }
  split; [exact A|]. now apply (all_chars_no_esc json_char).
Qed.

Lemma append_nil_r (s : string) : s ++ "" = s.
Proof. induction s as [|c s IH]; cbn; congruence. Qed.

(** X11: every string survives [json.dumps] and [json.loads]: quotes,
    backslashes, control characters and characters above 126 are
    escaped on the way out and restored on the way in. *)
Theorem json_string_round_trip (s : string) :
  json_loads (json_dumps (JString s)) = Some (JString s).
Proof.
  unfold json_loads, json_dumps. cbn [encode]. unfold encode_string, quoted.
  cbn [String.length]. rewrite (skip_ws_stop DQ) by reflexivity.
  cbn [scan_value]. change (Ascii.eqb DQ DQ) with true. cbv iota.
  now rewrite scan_string_encode.
Qed.

(** X12: every float survives [json.dumps] and [json.loads] as the
    same value, a zero with its sign, an infinity with its sign and a
    NaN as a NaN (the floats here have one NaN, as the text has one
    [NaN]), and it comes back as a float, never as an integer. *)
Theorem json_float_round_trip (x : float) :
  json_loads (json_dumps (JFloat x)) = Some (JFloat x).
Proof.
  unfold json_loads, json_dumps. cbn [encode].
  destruct (String.length (floatstr x)) as [|n] eqn:L.
  - exfalso. destruct (scan_value_float 0 x "" eq_refl) as [H _].
    destruct (floatstr x); [discriminate|discriminate].
  - destruct (scan_value_float n x "" eq_refl) as [Hv Hs].
    rewrite append_nil_r in Hv, Hs. now rewrite Hs, Hv.
Qed.

(** *** Dates *)

Lemma digit_value_nonzero (c : ascii) :
  is_digit c = true -> Ascii.eqb c "0" = false -> (1 <= digit_value c)%N.
Proof.
  unfold is_digit, digit_value. intros [H1 H2]%andb_prop H0.
  apply N.leb_le in H1. apply N.leb_le in H2.
  assert (N_of_ascii c <> 48%N).
  { intros E. assert (c = "0"%char).
    { rewrite <- (ascii_N_embedding c), E. reflexivity. }
    subst c. discriminate. }
  lia.
Qed.

Lemma decimal_length (n : N) (k : nat) :
  (n < 10 ^ N.of_nat k)%N -> (1 <= k)%nat -> (String.length (decimal n) <= k)%nat.
Proof.
  intros Hn Hk. destruct n as [|p]; [cbn; lia|].
  destruct (decimal_pos_head p) as [c [rest [E [Hc H0]]]].
  pose proof (decimal_value (Npos p)) as V. rewrite E in *.
  cbn [digits_acc] in V. rewrite digits_acc_shift in V.
  pose proof (digit_value_nonzero c Hc H0) as D.
  cbn [String.length].
  destruct (Nat.le_gt_cases (S (String.length rest)) k) as [|G]; [assumption|exfalso].
  assert (10 ^ N.of_nat k <= 10 ^ N.of_nat (String.length rest))%N
    by (apply N.pow_le_mono_r; lia).
  assert (10 ^ N.of_nat (String.length rest) <=
          (10 * 0 + digit_value c) * 10 ^ N.of_nat (String.length rest))%N by nia.
  lia.
Qed.

Lemma zfill_length (w : nat) (s : string) :
  String.length (zfill w s) = Nat.max w (String.length s).
Proof. unfold zfill. rewrite length_app, zeros_length. lia. Qed.

(** X13: for a day of a four-digit year the date text is four, two
    and two digits between dashes, and the digits read back as the
    year, the month and the day. *)
Theorem strftime_round_trip (ts : Timestamp) :
  (1000 <= ts_year ts < 10000)%N -> (1 <= ts_month ts <= 12)%N -> (1 <= ts_day ts <= 31)%N ->
  exists y m d,
    strftime_Ymd ts = y ++ "-" ++ m ++ "-" ++ d /\
    String.length y = 4%nat /\ String.length m = 2%nat /\ String.length d = 2%nat /\
    all_chars is_digit (y ++ m ++ d) = true /\
    digits_acc y 0 = ts_year ts /\ digits_acc m 0 = ts_month ts /\
    digits_acc d 0 = ts_day ts.
Proof.
  intros Hy Hm Hd. unfold strftime_Ymd.
  exists (zfill 4 (decimal (ts_year ts))), (zfill 2 (decimal (ts_month ts))),
         (zfill 2 (decimal (ts_day ts))).
  pose proof (decimal_length (ts_year ts) 4 ltac:(cbn; lia) ltac:(lia)).
  pose proof (decimal_length (ts_month ts) 2 ltac:(cbn; lia) ltac:(lia)).
  pose proof (decimal_length (ts_day ts) 2 ltac:(cbn; lia) ltac:(lia)).
  rewrite !zfill_length, !zfill_value, !all_chars_app.
  rewrite !zfill_digits by apply decimal_digits.
  repeat split; lia.
Qed.

Lemma strftime_round_trip_witness :
  exists y m d,
    strftime_Ymd (day 2024 1 2) = y ++ "-" ++ m ++ "-" ++ d /\
    String.length y = 4%nat /\ String.length m = 2%nat /\ String.length d = 2%nat /\
    all_chars is_digit (y ++ m ++ d) = true /\
    digits_acc y 0 = 2024%N /\ digits_acc m 0 = 1%N /\ digits_acc d 0 = 2%N.
Proof. apply (strftime_round_trip (day 2024 1 2)); cbn; lia. Defined.
